(* Shallow embedding of the turn orchestration core of MyWebAgentBackend:
   - ConversationManager._answer_question / GPTServer._answer_question
     (streamed turn, pending tool-call assembly);
   - ConversationManager._process_tool_result and answer_question_with_tools
     (tool execution step);
   - HeartbeatManager (heartbeat supervisor);
   - GPTServer.handler (per-frame router loop);
   - the two answer_conversation_message implementations. *)

From Stdlib Require Import String List Bool Arith Lia.
Import ListNotations.
Open Scope string_scope.
Open Scope list_scope.

(* ------------------------------------------------------------------ *)
(** * Python exceptions and error codes *)

(** Members of [src.interface.ErrorCode.ErrorCode] used by the modelled code.
    The module itself is not part of the sources; the members are kept as
    distinct enumeration constructors. *)
Inductive ErrorCode :=
| MSG_JSON_PARSE_ERROR | MSG_INVALID_TYPE | MSG_GPT_RESPONSE_ERROR
| SERVER_INTERNAL_ERROR | SERVER_CONNECTION_ERROR
| HEARTBEAT_TIMEOUT | HEARTBEAT_MAX_RETRIES
| TOOL_MISSING_ID | TOOL_MISSING_NAME | TOOL_MISSING_PARAMS | TOOL_MISSING_ADDRESS
| TOOL_HTTP_ERROR | TOOL_TIMEOUT | TOOL_PARAMS_FORMAT_ERROR | TOOL_EXECUTION_ERROR
| AUTH_TIMEOUT.

(** The exceptions the modelled code raises or catches. *)
Inductive PyExc :=
| IndexError                          (* list index out of range *)
| KeyError                            (* dict lookup of an absent key *)
| TypeError
| AttributeError
| JSONDecodeError                     (* json.JSONDecodeError *)
| HttpxTimeout                        (* httpx.TimeoutException *)
| HttpxError                          (* any other httpx transport error *)
| TimeoutError                        (* asyncio.TimeoutError *)
| ConnectionClosed                    (* websockets.exceptions.ConnectionClosed *)
| MessageProcessingError (c : ErrorCode)
| ToolExecutionError (c : ErrorCode)
| GPTServerError (c : ErrorCode).

(* ------------------------------------------------------------------ *)
(** * A state and exception monad for async Python code *)

Module Py.
Definition M (S A : Type) : Type := S -> S * (PyExc + A).

Definition ret {S A} (a : A) : M S A := fun s => (s, inr a).
Definition bind {S A B} (m : M S A) (k : A -> M S B) : M S B :=
  fun s => match m s with
           | (s', inr a) => k a s'
           | (s', inl e) => (s', inl e)
           end.
Definition raise {S A} (e : PyExc) : M S A := fun s => (s, inl e).
(** [try: m except e: h e] *)
Definition catch {S A} (m : M S A) (h : PyExc -> M S A) : M S A :=
  fun s => match m s with
           | (s', inl e) => h e s'
           | r => r
           end.
Definition get {S} : M S S := fun s => (s, inr s).
Definition modify {S} (f : S -> S) : M S unit := fun s => (f s, inr tt).
End Py.

Declare Scope py_scope.
Delimit Scope py_scope with py.
Notation "x <- m ;; k" := (Py.bind m (fun x => k))
  (at level 61, m at next level, right associativity) : py_scope.
Notation "m ;; k" := (Py.bind m (fun _ => k))
  (at level 61, right associativity) : py_scope.
Open Scope py_scope.

(* ------------------------------------------------------------------ *)
(** * Data model *)

Inductive Role := system | user | assistant | tool.

Definition role_eqb (a b : Role) : bool :=
  match a, b with
  | system, system | user, user | assistant, assistant | tool, tool => true
  | _, _ => false
  end.

(** One entry of [gpt_tool_calls] in answer_question_with_tools
    ({"id", "type": "function", "function": {"name", "arguments"}}). *)
Record GptToolCall := { gtc_id : string; gtc_name : string; gtc_arguments : string }.

(** A row of the [messages] table ([src.database.models.Message]); the
    [tool_calls] column holds [json.dumps(gpt_tool_calls)], kept here as
    the structured list it serialises. *)
Record DbMessage := {
  db_role : Role;
  db_content : option string;
  db_tool_call_id : option string;
  db_tool_calls : option (list GptToolCall)
}.

(** A dict of [Messages.messages] as built by the [_transform_*] helpers. *)
Record ChatMessage := {
  cm_role : Role;
  cm_content : option string;
  cm_tool_call_id : option string;
  cm_tool_calls : option (list GptToolCall)
}.

(** An entry of [function_calls] in [_answer_question]. *)
Record PendingToolCall := {
  pc_id : string;
  pc_name : string;
  pc_parameters : string;
  pc_server_address : string
}.

(** Outbound frames (MessageFormat.create_*_response). *)
Inductive Frame :=
| AnswerFrame (answer : string)                              (* server_answer *)
| SelectToolsFrame (select_functions : list PendingToolCall) (* server_select_function *)
| ConversationMessageFrame (conversation_id : string) (messages : list ChatMessage)
| ErrorFrame (code : ErrorCode)                              (* error *)
| HeartbeatFrame (user_id : string)                          (* heartbeat *)
| LogoutSuccessFrame.                                        (* logout_success *)

(** Observable effects of the conversation code: a frame sent to a user,
    a message stored in a conversation, an HTTP POST to a tool server. *)
Set Warnings "-register-all".

(** JSON values as [json.loads] returns them. *)
Inductive Json :=
| JObj (kvs : list (string * Json))
| JArr (xs : list Json)
| JStr (s : string)
| JNum (n : nat)
| JBool (b : bool)
| JNull.

(** [MessageFormat.create_json_rpc_request(id, method, params)]. *)
Record JsonRpcRequest := { rpc_id : string; rpc_method : string; rpc_params : Json }.

Inductive Effect :=
| SendToUser (user_id : string) (f : Frame)
| CreateMessage (m : DbMessage) (conversation_id : string)
| HttpPost (address : string) (payload : JsonRpcRequest).

(* ------------------------------------------------------------------ *)
(** * Python dict used as [available_functions] *)

(** An association list, newest binding first: [d[k] = v] conses, and
    [d[k]] returns the newest binding. *)
Definition Dict := list (string * string).

Fixpoint dict_get (d : Dict) (k : string) : option string :=
  match d with
  | [] => None
  | (k', v) :: d' => if String.eqb k k' then Some v else dict_get d' k
  end.

(* ------------------------------------------------------------------ *)
(** * The streamed turn: ConversationManager._answer_question *)

Module Orchestrator.

(** [delta.tool_calls[i]]: [id], [function.name], [function.arguments]. *)
Record ToolCallFragment := {
  tc_id : option string;
  tc_name : string;
  tc_arguments : string
}.

(** [chunk.choices[0].delta]. *)
Record Delta := {
  d_content : option string;
  d_tool_calls : option (list ToolCallFragment)
}.

(** One entry of [mcp_servers.get_servers()]: its address and the names
    of its [server_functions] ([server_function["function"]["name"]]). *)
Record McpServer := {
  server_address : string;
  server_functions : list string
}.

Definition TM := Py.M (list Effect).

Definition emit (e : Effect) : TM unit := fun log => (log ++ [e], inr tt).

(** The loop filling [available_functions]. *)
Definition build_available_functions (servers : list McpServer) : Dict :=
  fold_left
    (fun d srv => fold_left (fun d' f => (f, server_address srv) :: d') (server_functions srv) d)
    servers [].

(** [tools.extend(mcp_server["server_functions"])] *)
Definition build_tools (servers : list McpServer) : list string :=
  flat_map server_functions servers.

(** [function_calls[-1]["parameters"] += args] *)
Fixpoint append_to_last (calls : list PendingToolCall) (args : string)
  : option (list PendingToolCall) :=
  match calls with
  | [] => None
  | [c] => Some [{| pc_id := pc_id c; pc_name := pc_name c;
                    pc_parameters := String.append (pc_parameters c) args;
                    pc_server_address := pc_server_address c |}]
  | c :: cs => option_map (cons c) (append_to_last cs args)
  end.

(** The body of [for chunk in chat_stream]; the accumulator is
    [(function_calls, full_response)]. *)
Definition process_chunk (available_functions : Dict) (user_id : string)
    (acc : list PendingToolCall * string) (delta : Delta)
    : TM (list PendingToolCall * string) :=
  let '(function_calls, full_response) := acc in
  full_response' <-
    match d_content delta with
    | Some c => emit (SendToUser user_id (AnswerFrame c)) ;; Py.ret (String.append full_response c)
    | None => Py.ret full_response
    end ;;
  match d_tool_calls delta with
  | None => Py.ret (function_calls, full_response')
  | Some [] => Py.raise IndexError
  | Some (tc :: _) =>
      match tc_id tc with
      | Some i =>
          match dict_get available_functions (tc_name tc) with
          | Some addr =>
              Py.ret (function_calls ++
                        [{| pc_id := i; pc_name := tc_name tc;
                            pc_parameters := tc_arguments tc;
                            pc_server_address := addr |}],
                      full_response')
          | None => Py.raise KeyError
          end
      | None =>
          match append_to_last function_calls (tc_arguments tc) with
          | Some fc => Py.ret (fc, full_response')
          | None => Py.raise IndexError
          end
      end
  end.

Fixpoint consume (available_functions : Dict) (user_id : string)
    (acc : list PendingToolCall * string) (stream : list Delta)
    : TM (list PendingToolCall * string) :=
  match stream with
  | [] => Py.ret acc
  | d :: ds =>
      acc' <- process_chunk available_functions user_id acc d ;;
      consume available_functions user_id acc' ds
  end.

(** [if mcp_servers:] ([None] is the default argument). *)
Definition servers_of (mcp_servers : option (list McpServer)) : list McpServer :=
  match mcp_servers with Some s => s | None => [] end.

Definition assistant_message (content : string) : DbMessage :=
  {| db_role := assistant; db_content := Some content;
     db_tool_call_id := None; db_tool_calls := None |}.

Section Turn.
(** The model backend: [self.model.chat_stream(messages, tools, 0)]. *)
Variable chat_stream : list ChatMessage -> list string -> list Delta.
(** [self.gpt_server.system_prompts] *)
Variable system_prompts : string.

(** [if messages.get_messages()[0]["role"] == "system": ...content = system_prompts] *)
Definition substitute_system_prompt (messages : list ChatMessage)
  : TM (list ChatMessage) :=
  match messages with
  | [] => Py.raise IndexError
  | m :: ms =>
      if role_eqb (cm_role m) system
      then Py.ret ({| cm_role := cm_role m; cm_content := Some system_prompts;
                      cm_tool_call_id := cm_tool_call_id m;
                      cm_tool_calls := cm_tool_calls m |} :: ms)
      else Py.ret (m :: ms)
  end.

Definition _answer_question (messages : list ChatMessage) (user_id : string)
    (mcp_servers : option (list McpServer)) (conversation_id : string) : TM unit :=
  Py.catch
    (msgs <- substitute_system_prompt messages ;;
     let servers := servers_of mcp_servers in
     let available_functions := build_available_functions servers in
     let tools := build_tools servers in
     r <- consume available_functions user_id ([], "") (chat_stream msgs tools) ;;
     let '(function_calls, full_response) := r in
     match function_calls with
     | _ :: _ => emit (SendToUser user_id (SelectToolsFrame function_calls))
     | [] => emit (CreateMessage (assistant_message full_response) conversation_id)
     end)
    (fun _ => Py.raise (MessageProcessingError MSG_GPT_RESPONSE_ERROR)).
End Turn.

(** The pending list assembled from a stream that is consumed to its end. *)
Definition assemble (available_functions : Dict) (user_id : string)
    (stream : list Delta) : option (list PendingToolCall) :=
  match consume available_functions user_id ([], "") stream [] with
  | (_, inr (calls, _)) => Some calls
  | (_, inl _) => None
  end.

(** The [server_answer] frames of a stream, in order. *)
Definition content_frames (user_id : string) (stream : list Delta) : list Effect :=
  flat_map (fun d => match d_content d with
                     | Some c => [SendToUser user_id (AnswerFrame c)]
                     | None => []
                     end) stream.

(** The concatenation of the content fragments of a stream. *)
Fixpoint concat_contents (stream : list Delta) : string :=
  match stream with
  | [] => ""
  | d :: ds => String.append (match d_content d with Some c => c | None => "" end)
                             (concat_contents ds)
  end.

End Orchestrator.

(* ------------------------------------------------------------------ *)
(** * Storage: DatabaseOperations.get_message_list *)

Module Storage.
Import Orchestrator.

(** The rows of a conversation in insertion order: the rows stored before
    the operation ([db0], pairs of conversation id and row) followed by
    the rows created by [create_message] during it. *)
Definition stored_messages (db0 : list (string * DbMessage)) (log : list Effect)
    (conversation_id : string) : list DbMessage :=
  map snd (filter (fun p => String.eqb (fst p) conversation_id)
                  (db0 ++ flat_map (fun e => match e with
                                             | CreateMessage m c => [(c, m)]
                                             | _ => []
                                             end) log)).

Definition py_truthy (o : option string) : bool :=
  match o with Some s => negb (String.eqb s "") | None => false end.

(** [DatabaseOperations._convert_to_messages_format]; a stored
    [tool_calls] column is [json.dumps] of a list, never empty. *)
Definition convert_message (m : DbMessage) : list ChatMessage :=
  match db_role m with
  | system => [{| cm_role := system; cm_content := db_content m;
                  cm_tool_call_id := None; cm_tool_calls := None |}]
  | user => [{| cm_role := user; cm_content := db_content m;
                cm_tool_call_id := None; cm_tool_calls := None |}]
  | assistant =>
      match db_tool_calls m with
      | Some tcs => [{| cm_role := assistant; cm_content := None;
                        cm_tool_call_id := None; cm_tool_calls := Some tcs |}]
      | None => [{| cm_role := assistant; cm_content := db_content m;
                    cm_tool_call_id := None; cm_tool_calls := None |}]
      end
  | tool =>
      if py_truthy (db_tool_call_id m)
      then [{| cm_role := tool; cm_content := db_content m;
               cm_tool_call_id := db_tool_call_id m; cm_tool_calls := None |}]
      else []
  end.

Definition _convert_to_messages_format (ms : list DbMessage) : list ChatMessage :=
  flat_map convert_message ms.

Definition get_message_list (db0 : list (string * DbMessage)) (conversation_id : string)
  : TM (list ChatMessage) :=
  fun log => (log, inr (_convert_to_messages_format (stored_messages db0 log conversation_id))).
End Storage.

(* ------------------------------------------------------------------ *)
(** * Tool execution: ConversationManager._process_tool_result and
      answer_question_with_tools *)

Module ToolInvoker.
Import Orchestrator Storage.

(** An entry of [select_tools] as sent by the client; [None] is an
    absent key. *)
Record SelectTool := {
  st_id : option string;
  st_name : option string;
  st_parameters : option string;
  st_server_address : option string
}.

(** The outcome of [await client.post(server_address, ..., timeout=10)]. *)
Inductive HttpOutcome :=
| HttpTimeout                                (* httpx.TimeoutException *)
| HttpTransportError                         (* other httpx errors, e.g. connect *)
| HttpResponse (status_code : nat) (text : string).

Section Tools.
Variable json_loads : string -> option Json.
Variable json_dumps : Json -> string.
Variable http_post : string -> JsonRpcRequest -> HttpOutcome.

Definition loads (s : string) : TM Json :=
  match json_loads s with Some j => Py.ret j | None => Py.raise JSONDecodeError end.

(** [if not select_tool.get(key): raise ToolExecutionError(..., code)] *)
Definition require_field (o : option string) (code : ErrorCode) : TM string :=
  match o with
  | Some v => if String.eqb v "" then Py.raise (ToolExecutionError code) else Py.ret v
  | None => Py.raise (ToolExecutionError code)
  end.

Definition is_result_str (j : Json) : bool :=
  match j with JStr s => String.eqb s "result" | _ => false end.

(** [ "result" in response_data ] *)
Definition py_in_result (j : Json) : TM bool :=
  match j with
  | JObj kvs => Py.ret (existsb (fun kv => String.eqb (fst kv) "result") kvs)
  | JArr xs => Py.ret (existsb is_result_str xs)
  | JStr s => Py.ret (match String.index 0 "result" s with Some _ => true | None => false end)
  | _ => Py.raise TypeError
  end.

(** [response_data["result"]]; [json.loads] keeps the last duplicate key. *)
Definition py_get_result (j : Json) : TM Json :=
  match j with
  | JObj kvs =>
      match find (fun kv => String.eqb (fst kv) "result") (rev kvs) with
      | Some kv => Py.ret (snd kv)
      | None => Py.raise KeyError
      end
  | _ => Py.raise TypeError
  end.

Definition tool_message (i result : string) : DbMessage :=
  {| db_role := tool; db_content := Some result;
     db_tool_call_id := Some i; db_tool_calls := None |}.

Definition _process_tool_result (select_tool : SelectTool) (conversation_id : string)
  : TM unit :=
  Py.catch
    (i <- require_field (st_id select_tool) TOOL_MISSING_ID ;;
     n <- require_field (st_name select_tool) TOOL_MISSING_NAME ;;
     ps <- require_field (st_parameters select_tool) TOOL_MISSING_PARAMS ;;
     addr <- require_field (st_server_address select_tool) TOOL_MISSING_ADDRESS ;;
     params <- loads ps ;;
     let payload := {| rpc_id := i; rpc_method := n; rpc_params := params |} in
     emit (HttpPost addr payload) ;;
     match http_post addr payload with
     | HttpTimeout => Py.raise HttpxTimeout
     | HttpTransportError => Py.raise HttpxError
     | HttpResponse status text =>
         if negb (Nat.eqb status 200)
         then Py.raise (ToolExecutionError TOOL_HTTP_ERROR)
         else
           response_data <- loads text ;;
           has <- py_in_result response_data ;;
           if negb has
           then Py.raise (ToolExecutionError TOOL_EXECUTION_ERROR)
           else
             result <- py_get_result response_data ;;
             emit (CreateMessage (tool_message i (json_dumps result)) conversation_id)
     end)
    (fun e =>
       match e with
       | JSONDecodeError => Py.raise (ToolExecutionError TOOL_PARAMS_FORMAT_ERROR)
       | HttpxTimeout => Py.raise (ToolExecutionError TOOL_TIMEOUT)
       | _ =>
           (* the log line reads select_tool['name'] before re-raising *)
           match st_name select_tool with
           | None => Py.raise KeyError
           | Some _ => Py.raise (ToolExecutionError TOOL_EXECUTION_ERROR)
           end
       end).

(** [{"id": tool["id"], "type": "function",
      "function": {"name": tool["name"], "arguments": tool["parameters"]}}] *)
Definition to_gpt_tool_call (t : SelectTool) : TM GptToolCall :=
  match st_id t, st_name t, st_parameters t with
  | Some i, Some n, Some ps => Py.ret {| gtc_id := i; gtc_name := n; gtc_arguments := ps |}
  | _, _, _ => Py.raise KeyError
  end.

Fixpoint map_tool_calls (ts : list SelectTool) : TM (list GptToolCall) :=
  match ts with
  | [] => Py.ret []
  | t :: ts' => g <- to_gpt_tool_call t ;; gs <- map_tool_calls ts' ;; Py.ret (g :: gs)
  end.

Definition assistant_tool_message (gpt_tool_calls : list GptToolCall) : DbMessage :=
  {| db_role := assistant; db_content := None;
     db_tool_call_id := None; db_tool_calls := Some gpt_tool_calls |}.

(** [for select_tool in select_tools: await self._process_tool_result(...)] *)
Fixpoint process_all (select_tools : list SelectTool) (conversation_id : string) : TM unit :=
  match select_tools with
  | [] => Py.ret tt
  | t :: ts => _process_tool_result t conversation_id ;; process_all ts conversation_id
  end.

Variable chat_stream : list ChatMessage -> list string -> list Delta.
Variable system_prompts : string.
Variable db0 : list (string * DbMessage).

(** The [except Exception: ...; raise] wrapper re-raises unchanged. *)
Definition answer_question_with_tools (user_id conversation_id : string)
    (select_tools : list SelectTool) (mcp_server_list : option (list McpServer))
  : TM unit :=
  gpt_tool_calls <- map_tool_calls select_tools ;;
  emit (CreateMessage (assistant_tool_message gpt_tool_calls) conversation_id) ;;
  process_all select_tools conversation_id ;;
  message <- get_message_list db0 conversation_id ;;
  _answer_question chat_stream system_prompts message user_id mcp_server_list
                   conversation_id.
End Tools.
End ToolInvoker.

(* ------------------------------------------------------------------ *)
(** * The heartbeat supervisor: HeartbeatManager *)

Module Heartbeat.

(** An inbound text frame: not JSON, a JSON object (its string-valued
    fields), or some other JSON value. *)
Inductive Inbound :=
| Unparseable
| JsonObject (fields : list (string * string))
| JsonOther.

(** [data.get(key)]; [json.loads] keeps the last duplicate key. *)
Definition field (fields : list (string * string)) (key : string) : option string :=
  option_map snd (find (fun kv => String.eqb (fst kv) key) (rev fields)).

(** Close reasons; the source passes Chinese text, e.g. "xin tiao chao shi"
    (heartbeat timeout) for [ReasonHeartbeatTimeout]. *)
Inductive CloseReason := ReasonHeartbeatTimeout | ReasonAuthTimeout | ReasonInternalError.

(** Actions on the websocket: every attempted [send], and [close]. *)
Inductive WsAction := WsSend (f : Frame) | WsClose (code : nat) (reason : CloseReason).

(** The fields of a HeartbeatManager together with its websocket. *)
Record Conn := mkConn {
  retry_count : nat;
  max_retries : nat;
  is_running : bool;
  heartbeat_received : bool;
  ws_closed : bool;
  ws_out : list WsAction
}.

Definition set_retry_count (n : nat) (c : Conn) : Conn :=
  mkConn n (max_retries c) (is_running c) (heartbeat_received c) (ws_closed c) (ws_out c).
Definition set_is_running (b : bool) (c : Conn) : Conn :=
  mkConn (retry_count c) (max_retries c) b (heartbeat_received c) (ws_closed c) (ws_out c).
Definition set_heartbeat_received (b : bool) (c : Conn) : Conn :=
  mkConn (retry_count c) (max_retries c) (is_running c) b (ws_closed c) (ws_out c).
Definition set_ws_closed (b : bool) (c : Conn) : Conn :=
  mkConn (retry_count c) (max_retries c) (is_running c) (heartbeat_received c) b (ws_out c).
Definition push_out (a : WsAction) (c : Conn) : Conn :=
  mkConn (retry_count c) (max_retries c) (is_running c) (heartbeat_received c) (ws_closed c)
         (ws_out c ++ [a]).

Definition HM := Py.M Conn.

(** [await websocket.send(f)]: on a closed connection the attempt raises
    ConnectionClosed. *)
Definition ws_send (f : Frame) : HM unit :=
  fun c => if ws_closed c then (push_out (WsSend f) c, inl ConnectionClosed)
           else (push_out (WsSend f) c, inr tt).

(** [await websocket.close(code, reason)] *)
Definition ws_close (code : nat) (reason : CloseReason) : HM unit :=
  fun c => (set_ws_closed true (push_out (WsClose code reason) c), inr tt).

(** [MessageFormat.is_heartbeat_ack_message] *)
Definition is_heartbeat_ack_message (m : Inbound) : HM bool :=
  match m with
  | Unparseable => Py.ret false
  | JsonObject fs =>
      Py.ret (match field fs "type" with
              | Some t => String.eqb t "heartbeat_ack"
              | None => false
              end)
  | JsonOther => Py.raise AttributeError
  end.

(** [HeartbeatManager.handle_message] *)
Definition handle_message (m : Inbound) : HM bool :=
  b <- is_heartbeat_ack_message m ;;
  if b then Py.modify (fun c => set_retry_count 0 (set_heartbeat_received true c)) ;;
            Py.ret true
  else Py.ret false.

Definition ack_frame : Inbound := JsonObject [("type", "heartbeat_ack")].

(** What happens during one round of the loop: the acknowledgement is
    received within [timeout], it is not, or the peer has closed the
    connection during [asyncio.sleep(interval)]. *)
Inductive Round := AckInTime | NoAck | PeerClosed.

Inductive LoopCtl := Continue | Break.

Section Supervisor.
Variable user_id : string.

(** [HeartbeatManager.send_heartbeat] *)
Definition send_heartbeat : HM unit :=
  Py.catch
    (ws_send (HeartbeatFrame user_id) ;;
     Py.modify (set_heartbeat_received false))
    (fun e =>
       match e with
       | ConnectionClosed =>
           ws_send (ErrorFrame SERVER_CONNECTION_ERROR) ;;
           Py.modify (set_is_running false)
       | _ =>
           ws_send (ErrorFrame SERVER_INTERNAL_ERROR) ;;
           Py.modify (set_is_running false)
       end).

(** [HeartbeatManager._wait_for_heartbeat_ack]: polls until the flag is
    set (by [handle_message], run by the router on the acknowledgement),
    the manager is stopped, or [timeout] elapses. *)
Definition _wait_for_heartbeat_ack (r : Round) : HM unit :=
  c <- Py.get ;;
  if heartbeat_received c || negb (is_running c) then Py.ret tt
  else match r with
       | AckInTime => _ <- handle_message ack_frame ;; Py.ret tt
       | NoAck | PeerClosed => Py.raise TimeoutError
       end.

(** [HeartbeatManager.handle_heartbeat_failure] *)
Definition handle_heartbeat_failure : HM unit := ws_close 1000 ReasonHeartbeatTimeout.

(** The [try]/[except] body of one iteration of [_heartbeat_loop]. *)
Definition loop_iteration (r : Round) : HM LoopCtl :=
  Py.catch
    (send_heartbeat ;; _wait_for_heartbeat_ack r ;; Py.ret Continue)
    (fun e =>
       match e with
       | TimeoutError =>
           Py.modify (fun c => set_retry_count (S (retry_count c)) c) ;;
           ws_send (ErrorFrame HEARTBEAT_TIMEOUT) ;;
           c <- Py.get ;;
           if Nat.leb (max_retries c) (retry_count c)
           then ws_send (ErrorFrame HEARTBEAT_MAX_RETRIES) ;;
                Py.modify (set_is_running false) ;;
                handle_heartbeat_failure ;;
                Py.ret Break
           else Py.ret Continue
       | ConnectionClosed =>
           ws_send (ErrorFrame SERVER_CONNECTION_ERROR) ;;
           Py.modify (set_is_running false) ;;
           Py.ret Break
       | _ =>
           ws_send (ErrorFrame SERVER_INTERNAL_ERROR) ;;
           Py.modify (set_is_running false) ;;
           Py.ret Break
       end).

(** [HeartbeatManager._heartbeat_loop], observed over a finite list of
    rounds: [while self.is_running and self.retry_count < self.max_retries]. *)
Fixpoint _heartbeat_loop (rounds : list Round) : HM unit :=
  match rounds with
  | [] => Py.ret tt
  | r :: rs =>
      c <- Py.get ;;
      if is_running c && Nat.ltb (retry_count c) (max_retries c) then
        (match r with PeerClosed => Py.modify (set_ws_closed true) | _ => Py.ret tt end) ;;
        ctl <- loop_iteration r ;;
        match ctl with
        | Continue => _heartbeat_loop rs
        | Break => Py.ret tt
        end
      else Py.ret tt
  end.
End Supervisor.

(** What one round without acknowledgement sends. *)
Definition timeout_round_out (user_id : string) : list WsAction :=
  [WsSend (HeartbeatFrame user_id); WsSend (ErrorFrame HEARTBEAT_TIMEOUT)].
End Heartbeat.

(* ------------------------------------------------------------------ *)
(** * Message routing: the main loop of GPTServer.handler *)

Module Router.
Import Heartbeat.

(** The branches of the [if]/[elif] chain on [message_type]. *)
Inductive Handler :=
| Logout | SettingsAddServer | ConversationQuestion | ConversationMessage
| UserQuestion | ExecuteTools.

(** The [if]/[elif] chain; [None] is the final [else]. The compared values
    are "logout" and [MessageFormat.RequestType]'s values. *)
Definition dispatch (message_type : string) : option Handler :=
  if String.eqb message_type "logout" then Some Logout
  else if String.eqb message_type "settings_add_server" then Some SettingsAddServer
  else if String.eqb message_type "conversation_question" then Some ConversationQuestion
  else if String.eqb message_type "conversation_message" then Some ConversationMessage
  else if String.eqb message_type "user_question" then Some UserQuestion
  else if String.eqb message_type "execute_tools" then Some ExecuteTools
  else None.

(** The error code chosen by the [except] clauses of the inner [try]. *)
Definition error_code_of (e : PyExc) : ErrorCode :=
  match e with
  | JSONDecodeError => MSG_JSON_PARSE_ERROR
  | MessageProcessingError c => c
  | ToolExecutionError c => c
  | _ => SERVER_INTERNAL_ERROR
  end.

(** [WebsocketMessage(message)]: [json.loads]. A non-object document never
    gets here: [handle_message] has raised on it before. *)
Definition parse (m : Inbound) : HM (list (string * string)) :=
  match m with
  | Unparseable => Py.raise JSONDecodeError
  | JsonObject fs => Py.ret fs
  | JsonOther => Py.raise TypeError
  end.

(** [WebsocketMessage.get_type] *)
Definition get_type (fs : list (string * string)) : HM string :=
  match field fs "type" with
  | Some t => Py.ret t
  | None => Py.raise KeyError
  end.

(** [GPTServer._send_to_user] on the connection registered for the user:
    a [ConnectionClosed] raised by [send] is caught. *)
Definition _send_to_user (f : Frame) : HM unit :=
  Py.catch (ws_send f)
    (fun e => match e with ConnectionClosed => Py.ret tt | _ => Py.raise e end).

Definition push_outs (l : list WsAction) (c : Conn) : Conn :=
  mkConn (retry_count c) (max_retries c) (is_running c) (heartbeat_received c) (ws_closed c)
         (ws_out c ++ l).

Section Loop.
(** The dispatched handlers (settings update, the conversation and
    question handlers, tool execution), observed through the frames they
    send and the exception, if any, they end with. *)
Variable run_handler : Handler -> list (string * string) -> list Frame * option PyExc.

(** [settings_user_server] sends with [websocket.send] on the pooled
    connection; the other handlers send through [_send_to_user]. *)
Definition deliver (h : Handler) (f : Frame) : HM unit :=
  match h with
  | SettingsAddServer => ws_send f
  | _ => _send_to_user f
  end.

Fixpoint send_all (h : Handler) (fs : list Frame) : HM unit :=
  match fs with
  | [] => Py.ret tt
  | f :: fs' => deliver h f ;; send_all h fs'
  end.

Definition exec_handler (h : Handler) (fs : list (string * string)) : HM unit :=
  let (frames, oe) := run_handler h fs in
  send_all h frames ;;
  match oe with
  | Some e => Py.raise e
  | None => Py.ret tt
  end.

(** One iteration of [async for message in websocket] with its inner
    [try]/[except]. *)
Definition handle_frame (m : Inbound) : HM unit :=
  Py.catch
    (b <- handle_message m ;;
     if b then Py.ret tt
     else
       fs <- parse m ;;
       t <- get_type fs ;;
       match dispatch t with
       | Some Logout => ws_send LogoutSuccessFrame
       | Some h => exec_handler h fs
       | None => ws_send (ErrorFrame MSG_INVALID_TYPE)
       end)
    (fun e => ws_send (ErrorFrame (error_code_of e))).

Fixpoint message_loop (ms : list Inbound) : HM unit :=
  match ms with
  | [] => Py.ret tt
  | m :: ms' => handle_frame m ;; message_loop ms'
  end.

(** The main message loop under the outer [except] clauses of
    [GPTServer.handler] (after authentication). *)
Definition connection_loop (ms : list Inbound) : HM unit :=
  Py.catch (message_loop ms)
    (fun e =>
       match e with
       | TimeoutError =>
           ws_send (ErrorFrame AUTH_TIMEOUT) ;; ws_close 1008 ReasonAuthTimeout
       | ConnectionClosed => ws_send (ErrorFrame SERVER_CONNECTION_ERROR)
       | _ => ws_send (ErrorFrame SERVER_INTERNAL_ERROR) ;; ws_close 1011 ReasonInternalError
       end).
End Loop.

(** A computation on an open connection leaves it open and only adds
    sends to what was sent. *)
Definition grows (c c' : Conn) : Prop :=
  ws_closed c' = false /\ exists l, ws_out c' = ws_out c ++ map WsSend l.

Definition safe {A} (m : HM A) : Prop :=
  forall c, ws_closed c = false -> grows c (fst (m c)).

(** A computation on an open connection raises nothing. *)
Definition nofail {A} (m : HM A) : Prop :=
  forall c, ws_closed c = false -> exists v, snd (m c) = inr v.
End Router.

(* ------------------------------------------------------------------ *)
(** * The two answer_conversation_message implementations *)

Module Transcript.
Import Orchestrator Storage.

(** [Messages.delete_system_message] *)
Definition delete_system_message (ms : list ChatMessage) : list ChatMessage :=
  filter (fun m => negb (role_eqb (cm_role m) system)) ms.

(** [Messages.filter_valid_conversation_messages] *)
Definition filter_valid_conversation_messages (ms : list ChatMessage) : list ChatMessage :=
  filter (fun m => role_eqb (cm_role m) user
                   || (role_eqb (cm_role m) assistant && py_truthy (cm_content m))) ms.
End Transcript.

(** [GPTServer.answer_conversation_message] *)
Module GPTServerTranscript.
Import Orchestrator Storage Transcript.

Definition answer_conversation_message (db0 : list (string * DbMessage))
    (conversation_id user_id : string) : TM unit :=
  message <- get_message_list db0 conversation_id ;;
  let message := delete_system_message message in
  emit (SendToUser user_id (ConversationMessageFrame conversation_id message)).
End GPTServerTranscript.

(** [ConversationManager.answer_conversation_message] *)
Module ConversationManagerTranscript.
Import Orchestrator Storage Transcript.

Definition answer_conversation_message (db0 : list (string * DbMessage))
    (conversation_id user_id : string) : TM unit :=
  message <- get_message_list db0 conversation_id ;;
  let message := delete_system_message message in
  let message := filter_valid_conversation_messages message in
  emit (SendToUser user_id (ConversationMessageFrame conversation_id message)).
End ConversationManagerTranscript.

(* ------------------------------------------------------------------ *)
(** * The live router's handler arguments: WebsocketMessage getters *)

Module LiveRouter.
Import Heartbeat Router.

(** The [WebsocketMessage] calls made while the router builds a handler's
    arguments. *)
Inductive Arg := ArgQuestion | ArgConversationId | ArgMcpServers | ArgSelectFunctions | ArgServer.

(** What a getter raises, if anything. [get_question] and
    [get_select_functions] raise KeyError on an absent key; [get_mcp_servers]
    falls back to [MCPServers()]; [WebsocketMessage] defines no
    [get_conversation_id] and no [get_server], so looking them up raises
    AttributeError. *)
Definition get_arg (fs : list (string * string)) (a : Arg) : option PyExc :=
  match a with
  | ArgQuestion => match field fs "question" with Some _ => None | None => Some KeyError end
  | ArgSelectFunctions =>
      match field fs "select_functions" with Some _ => None | None => Some KeyError end
  | ArgMcpServers => None
  | ArgConversationId | ArgServer => Some AttributeError
  end.

(** The getters of each branch of [GPTServer.handler], in argument order. *)
Definition handler_args (h : Handler) : list Arg :=
  match h with
  | Logout => []
  | SettingsAddServer => [ArgServer]
  | ConversationQuestion => [ArgQuestion; ArgMcpServers]
  | ConversationMessage => [ArgConversationId]
  | UserQuestion => [ArgQuestion; ArgConversationId; ArgMcpServers]
  | ExecuteTools => [ArgQuestion; ArgConversationId; ArgSelectFunctions; ArgMcpServers]
  end.

(** Python evaluates the arguments left to right; the first exception wins. *)
Fixpoint eval_args (fs : list (string * string)) (args : list Arg) : option PyExc :=
  match args with
  | [] => None
  | a :: args' => match get_arg fs a with Some e => Some e | None => eval_args fs args' end
  end.

(** A dispatched branch: its arguments are evaluated first, then the
    handler body ([body]) runs. *)
Definition live_handler (body : Handler -> list (string * string) -> list Frame * option PyExc)
    (h : Handler) (fs : list (string * string)) : list Frame * option PyExc :=
  match eval_args fs (handler_args h) with
  | Some e => ([], Some e)
  | None => body h fs
  end.
End LiveRouter.

(* ------------------------------------------------------------------ *)
(** * Authentication and registration: GPTServer.handle_auth and
      GPTServer.handle_register *)

Module Auth.

(** The [ErrorCode] members raised or returned by the authentication code. *)
Inductive AuthErrorCode :=
| AUTH_MISSING_TYPE | AUTH_INVALID_TYPE | AUTH_MISSING_USERNAME | AUTH_MISSING_PASSWORD
| AUTH_USER_NOT_FOUND | AUTH_INVALID_PASSWORD | AUTH_INVALID_USERNAME
| AUTH_USER_ALREADY_EXISTS.

(** A row of the [users] table ([models.User] without [create_time]). *)
Record User := {
  user_id : string;
  username : string;
  password : string;
  settings : option string
}.

(** [not x] for [x = data.get(key)] with a string value or None. *)
Definition py_falsy (o : option string) : bool :=
  match o with Some s => String.eqb s "" | None => true end.



Inductive AuthOutcome := AuthOk (u : User) | AuthFail (code : AuthErrorCode).


Section Db.
(** [username = %s] under the column's collation. *)
Variable username_eq : string -> string -> bool.

(** [DatabaseOperations.get_user_by_username]: [result[0]] of the query,
    the table order standing for the order the rows are returned in. *)
Definition get_user_by_username (users : list User) (name : string) : option User :=
  find (fun r => username_eq (username r) name) users.


(** [GPTServer.handle_auth] on a JSON object (its string fields); on
    success the auth_success frame is sent and the user returned. *)
Definition handle_auth (users : list User) (auth_data : list (string * string)) : AuthOutcome :=
  let auth_type := Heartbeat.field auth_data "type" in
  if py_falsy auth_type then AuthFail AUTH_MISSING_TYPE
  else match auth_type with
  | Some "login" =>
      let uname := Heartbeat.field auth_data "username" in
      let pw := Heartbeat.field auth_data "password" in
      if py_falsy uname then AuthFail AUTH_MISSING_USERNAME
      else if py_falsy pw then AuthFail AUTH_MISSING_PASSWORD
      else
        match uname, pw with
        | Some un, Some p =>
            match get_user_by_username users un with
            | None => AuthFail AUTH_USER_NOT_FOUND
            | Some u =>
                if negb (String.eqb (password u) p) then AuthFail AUTH_INVALID_PASSWORD
                else AuthOk u
            end
        | _, _ => AuthFail AUTH_MISSING_USERNAME (* not reached: both checked above *)
        end
  | _ => AuthFail AUTH_INVALID_TYPE
  end.

End Db.
End Auth.

(* ------------------------------------------------------------------ *)
(** * Helpers for reading results *)

(** The close actions among websocket actions. *)
Definition closes (l : list Heartbeat.WsAction) : list (nat * Heartbeat.CloseReason) :=
  flat_map (fun a => match a with
                     | Heartbeat.WsClose code reason => [(code, reason)]
                     | Heartbeat.WsSend _ => []
                     end) l.

(** The ids of the id-bearing tool-call fragments of a stream, in order. *)
Definition fragment_ids (stream : list Orchestrator.Delta) : list string :=
  flat_map (fun d => match Orchestrator.d_tool_calls d with
                     | Some (tc :: _) => match Orchestrator.tc_id tc with
                                         | Some i => [i]
                                         | None => []
                                         end
                     | _ => []
                     end) stream.

(** The messages stored by a list of effects, with their conversations. *)
Definition created_messages (l : list Effect) : list (DbMessage * string) :=
  flat_map (fun e => match e with CreateMessage m c => [(m, c)] | _ => [] end) l.

(* ================================================================== *)
(** * Properties *)

Lemma str_app_assoc : forall a b c : string,
  String.append (String.append a b) c = String.append a (String.append b c).
Proof. induction a; intros; simpl; [reflexivity | now rewrite IHa]. Qed.

Lemma str_app_nil_r : forall a : string, String.append a "" = a.
Proof. induction a; simpl; [reflexivity | now rewrite IHa]. Qed.

Module OrchestratorFacts.
Import Orchestrator.

Lemma process_chunk_ok : forall avail u calls full d log log' calls' full',
  process_chunk avail u (calls, full) d log = (log', inr (calls', full')) ->
  log' = log ++ content_frames u [d] /\
  full' = String.append full (concat_contents [d]).
Proof.
  intros avail u calls full d log log' calls' full' H.
  destruct d as [[c|] otc]; cbn in H |- *;
    repeat (match type of H with context [match ?x with _ => _ end] =>
              destruct x end);
    unfold Py.raise, Py.ret in H; inversion H; subst;
    rewrite ?str_app_nil_r, ?app_nil_r; auto.
Qed.

Lemma consume_ok : forall stream avail u calls full log log' calls' full',
  consume avail u (calls, full) stream log = (log', inr (calls', full')) ->
  log' = log ++ content_frames u stream /\
  full' = String.append full (concat_contents stream).
Proof.
  induction stream as [|d ds IH]; intros avail u calls full log log' calls' full' H.
  - cbn in H. inversion H; subst. rewrite app_nil_r, str_app_nil_r. auto.
  - cbn [consume] in H. unfold Py.bind in H.
    destruct (process_chunk avail u (calls, full) d log) as [l1 [e|[c1 f1]]] eqn:E;
      [discriminate|].
    apply process_chunk_ok in E as [-> ->].
    apply IH in H as [-> ->]. split.
    + rewrite <- app_assoc. cbn [content_frames flat_map].
      rewrite app_nil_r. reflexivity.
    + rewrite str_app_assoc. cbn [concat_contents].
      rewrite str_app_nil_r. reflexivity.
Qed.
Lemma substitute_system_prompt_log : forall sp messages log r,
  substitute_system_prompt sp messages log = r -> fst r = log.
Proof.
  intros sp [|m ms] log r <-; cbn; [reflexivity|].
  destruct (role_eqb (cm_role m) system); reflexivity.
Qed.

(** C1: when a turn consumes the model stream to its end, it ends in
    exactly one of two ways: a non-empty pending list is sent as one
    [server_select_function] frame and nothing is stored, or an empty
    pending list leads to exactly one stored assistant message whose
    content is the concatenation of all content fragments and which has no
    tool calls (and no selection frame). Before either, the only effects
    are the [server_answer] frames of the content fragments, in order. *)
Theorem answer_question_turn_outcome :
  forall chat_stream system_prompts messages user_id mcp_servers conversation_id log log',
  _answer_question chat_stream system_prompts messages user_id mcp_servers
                   conversation_id log = (log', inr tt) ->
  exists msgs calls full,
    let servers := servers_of mcp_servers in
    let stream := chat_stream msgs (build_tools servers) in
    substitute_system_prompt system_prompts messages log = (log, inr msgs) /\
    consume (build_available_functions servers) user_id ([], "") stream log
      = (log ++ content_frames user_id stream, inr (calls, full)) /\
    full = concat_contents stream /\
    ((calls <> [] /\
      log' = log ++ content_frames user_id stream
                 ++ [SendToUser user_id (SelectToolsFrame calls)]) \/
     (calls = [] /\
      log' = log ++ content_frames user_id stream
                 ++ [CreateMessage (assistant_message full) conversation_id] /\
      db_content (assistant_message full) = Some (concat_contents stream) /\
      db_tool_calls (assistant_message full) = None)).
Proof.
  intros chat_stream sp messages u servers conv log log' H.
  unfold _answer_question, Py.catch, Py.bind in H.
  destruct (substitute_system_prompt sp messages log) as [l0 [e|msgs]] eqn:Es;
    [discriminate|].
  pose proof (substitute_system_prompt_log sp messages log _ Es) as Hl0.
  cbn in Hl0; subst l0.
  destruct (consume (build_available_functions (servers_of servers)) u ([], "")
              (chat_stream msgs (build_tools (servers_of servers))) log)
    as [l1 [e|[calls full]]] eqn:Ec; [discriminate|].
  pose proof Ec as Ec'.
  apply consume_ok in Ec' as [-> Hfull]. cbn in Hfull.
  exists msgs, calls, full. cbn zeta.
  split; [reflexivity|]. split; [exact Ec|]. split; [exact Hfull|].
  destruct calls as [|c cs]; unfold emit in H; inversion H; subst.
  - right. rewrite <- app_assoc. repeat split; reflexivity.
  - left. rewrite <- app_assoc. split; [discriminate|reflexivity].
Qed.

Lemma consume_continuation_first :
  forall pre d tc rest post avail u full log,
  Forall (fun d0 => d_tool_calls d0 = None) pre ->
  d_tool_calls d = Some (tc :: rest) ->
  tc_id tc = None ->
  exists log', consume avail u ([], full) (pre ++ d :: post) log = (log', inl IndexError).
Proof.
  induction pre as [|d0 pre IH]; intros d tc rest post avail u full log Hpre Hd Hid.
  - destruct d as [oc otc]; cbn in Hd; subst otc.
    destruct oc; cbn; rewrite Hid; eexists; reflexivity.
  - inversion Hpre as [|? ? Hd0 Hpre']; subst.
    destruct d0 as [oc0 otc0]; cbn in Hd0; subst otc0.
    destruct oc0; cbn; eapply IH; eauto.
Qed.

(** C8: a stream whose first tool-call fragment is a continuation (it has
    no call id) makes the turn fail with the structured
    [MessageProcessingError(MSG_GPT_RESPONSE_ERROR)]; the out-of-range
    [function_calls[-1]] does not escape the orchestrator. *)
Theorem continuation_before_id_fails_structured :
  forall chat_stream system_prompts messages user_id mcp_servers conversation_id log
         pre d tc rest post,
  (forall msgs tools, chat_stream msgs tools = pre ++ d :: post) ->
  Forall (fun d0 => d_tool_calls d0 = None) pre ->
  d_tool_calls d = Some (tc :: rest) ->
  tc_id tc = None ->
  exists log',
    _answer_question chat_stream system_prompts messages user_id mcp_servers
                     conversation_id log
    = (log', inl (MessageProcessingError MSG_GPT_RESPONSE_ERROR)).
Proof.
  intros chat_stream sp messages u servers conv log pre d tc rest post Hs Hpre Hd Hid.
  unfold _answer_question, Py.catch, Py.bind.
  destruct (substitute_system_prompt sp messages log) as [l0 [e|msgs]];
    [eexists; reflexivity|].
  rewrite Hs.
  destruct (consume_continuation_first pre d tc rest post
              (build_available_functions (servers_of servers)) u "" l0 Hpre Hd Hid)
    as [l1 E].
  rewrite E. eexists; reflexivity.
Qed.

Lemma continuation_before_id_fails_structured_witness :
  (forall (msgs : list ChatMessage) (tools : list string),
     (fun _ _ => [{| d_content := None;
                     d_tool_calls := Some [{| tc_id := None; tc_name := "get_time";
                                              tc_arguments := "{}" |}] |}])
       msgs tools
     = [] ++ {| d_content := None;
                d_tool_calls := Some [{| tc_id := None; tc_name := "get_time";
                                         tc_arguments := "{}" |}] |} :: []) /\
  exists log',
    _answer_question
      (fun _ _ => [{| d_content := None;
                      d_tool_calls := Some [{| tc_id := None; tc_name := "get_time";
                                               tc_arguments := "{}" |}] |}])
      "prompt" [{| cm_role := user; cm_content := Some "hi";
                   cm_tool_call_id := None; cm_tool_calls := None |}]
      "u1" None "c1" []
    = (log', inl (MessageProcessingError MSG_GPT_RESPONSE_ERROR)).
Proof.
  split; [reflexivity|].
  apply (continuation_before_id_fails_structured _ _ _ _ _ _ _ []
           {| d_content := None;
              d_tool_calls := Some [{| tc_id := None; tc_name := "get_time";
                                       tc_arguments := "{}" |}] |}
           {| tc_id := None; tc_name := "get_time"; tc_arguments := "{}" |} [] []).
  - reflexivity.
  - constructor.
  - reflexivity.
  - reflexivity.
Defined.

(** C2 (as stated): with A's id-bearing fragment carrying "{", continuations
    "a:1" and "}", A's assembled arguments are not the concatenation
    "a:1}" of its two continuations: the buffer is seeded with "{". *)
Lemma assemble_seeded_counterexample :
  ~ (exists a b,
       assemble [("get_time", "http://t"); ("get_weather", "http://w")] "u1"
         [ {| d_content := None; d_tool_calls := Some [{| tc_id := Some "call_a";
                tc_name := "get_weather"; tc_arguments := "{" |}] |};
           {| d_content := None; d_tool_calls := Some [{| tc_id := None;
                tc_name := ""; tc_arguments := "a:1" |}] |};
           {| d_content := None; d_tool_calls := Some [{| tc_id := None;
                tc_name := ""; tc_arguments := "}" |}] |};
           {| d_content := None; d_tool_calls := Some [{| tc_id := Some "call_b";
                tc_name := "get_time"; tc_arguments := "{}" |}] |} ]
       = Some [a; b] /\
       pc_parameters a = String.append "a:1" "}" /\
       pc_parameters b = "{}").
Proof.
  intros [a [b [H [Ha Hb]]]]. vm_compute in H.
  injection H as <- <-. vm_compute in Ha. discriminate Ha.
Qed.

(** C2 (amended): when both function names resolve in the lookup, the
    sequence A (id-bearing), two continuations, B (id-bearing) assembles to
    exactly two pending calls; A's arguments are A's own fragment followed
    by the two continuation fragments, B's arguments are B's fragment. *)
Theorem assemble_two_calls :
  forall avail u ia na sa ib nb sb n1 n2 s1 s2 cA c1 c2 cB rA r1 r2 rB addrA addrB,
  dict_get avail na = Some addrA ->
  dict_get avail nb = Some addrB ->
  assemble avail u
    [ {| d_content := cA; d_tool_calls :=
           Some ({| tc_id := Some ia; tc_name := na; tc_arguments := sa |} :: rA) |};
      {| d_content := c1; d_tool_calls :=
           Some ({| tc_id := None; tc_name := n1; tc_arguments := s1 |} :: r1) |};
      {| d_content := c2; d_tool_calls :=
           Some ({| tc_id := None; tc_name := n2; tc_arguments := s2 |} :: r2) |};
      {| d_content := cB; d_tool_calls :=
           Some ({| tc_id := Some ib; tc_name := nb; tc_arguments := sb |} :: rB) |} ]
  = Some [ {| pc_id := ia; pc_name := na;
              pc_parameters := String.append (String.append sa s1) s2;
              pc_server_address := addrA |};
           {| pc_id := ib; pc_name := nb; pc_parameters := sb;
              pc_server_address := addrB |} ].
Proof.
  intros avail u ia na sa ib nb sb n1 n2 s1 s2 cA c1 c2 cB rA r1 r2 rB addrA addrB HA HB.
  unfold assemble.
  destruct cA, c1, c2, cB; cbn; rewrite HA; cbn; rewrite HB; reflexivity.
Qed.

Lemma assemble_two_calls_witness :
  dict_get [("get_time", "http://t"); ("get_weather", "http://w")] "get_weather"
    = Some "http://w" /\
  dict_get [("get_time", "http://t"); ("get_weather", "http://w")] "get_time"
    = Some "http://t" /\
  assemble [("get_time", "http://t"); ("get_weather", "http://w")] "u1"
    [ {| d_content := None; d_tool_calls := Some [{| tc_id := Some "call_a";
           tc_name := "get_weather"; tc_arguments := "{" |}] |};
      {| d_content := None; d_tool_calls := Some [{| tc_id := None;
           tc_name := ""; tc_arguments := "a:1" |}] |};
      {| d_content := Some "ok"; d_tool_calls := Some [{| tc_id := None;
           tc_name := ""; tc_arguments := "}" |}] |};
      {| d_content := None; d_tool_calls := Some [{| tc_id := Some "call_b";
           tc_name := "get_time"; tc_arguments := "{}" |}] |} ]
  = Some [ {| pc_id := "call_a"; pc_name := "get_weather";
              pc_parameters := String.append (String.append "{" "a:1") "}";
              pc_server_address := "http://w" |};
           {| pc_id := "call_b"; pc_name := "get_time"; pc_parameters := "{}";
              pc_server_address := "http://t" |} ].
Proof.
  split; [reflexivity|]. split; [reflexivity|].
  apply (assemble_two_calls _ _ _ _ _ _ _ _ "" "" _ _ None None (Some "ok") None
           [] [] [] []); reflexivity.
Defined.
Lemma answer_question_turn_outcome_witness :
  _answer_question (fun _ _ => [{| d_content := Some "4"; d_tool_calls := None |}])
    "prompt" [{| cm_role := user; cm_content := Some "2+2?";
                 cm_tool_call_id := None; cm_tool_calls := None |}] "u1" None "c1" []
  = ([SendToUser "u1" (AnswerFrame "4");
      CreateMessage (assistant_message "4") "c1"], inr tt) /\
  exists msgs calls full,
    let servers := servers_of None in
    let stream := (fun (_ : list ChatMessage) (_ : list string) =>
                     [{| d_content := Some "4"; d_tool_calls := None |}])
                    msgs (build_tools servers) in
    substitute_system_prompt "prompt"
      [{| cm_role := user; cm_content := Some "2+2?";
          cm_tool_call_id := None; cm_tool_calls := None |}] [] = ([], inr msgs) /\
    consume (build_available_functions servers) "u1" ([], "") stream []
      = ([] ++ content_frames "u1" stream, inr (calls, full)) /\
    full = concat_contents stream /\
    ((calls <> [] /\
      [SendToUser "u1" (AnswerFrame "4"); CreateMessage (assistant_message "4") "c1"]
        = [] ++ content_frames "u1" stream
             ++ [SendToUser "u1" (SelectToolsFrame calls)]) \/
     (calls = [] /\
      [SendToUser "u1" (AnswerFrame "4"); CreateMessage (assistant_message "4") "c1"]
        = [] ++ content_frames "u1" stream
             ++ [CreateMessage (assistant_message full) "c1"] /\
      db_content (assistant_message full) = Some (concat_contents stream) /\
      db_tool_calls (assistant_message full) = None)).
Proof.
  split; [reflexivity|].
  apply (answer_question_turn_outcome
           (fun _ _ => [{| d_content := Some "4"; d_tool_calls := None |}]) "prompt"
           [{| cm_role := user; cm_content := Some "2+2?";
               cm_tool_call_id := None; cm_tool_calls := None |}] "u1" None "c1" []
           [SendToUser "u1" (AnswerFrame "4"); CreateMessage (assistant_message "4") "c1"]).
  reflexivity.
Defined.
End OrchestratorFacts.

Module ToolInvokerFacts.
Import Orchestrator Storage ToolInvoker.

(** C3 (code_bug): a non-200 response is reported as TOOL_EXECUTION_ERROR,
    not TOOL_HTTP_ERROR (the blanket [except Exception] re-wraps the
    ToolExecutionError raised for the status), and a 200 response whose
    body does not parse is reported as TOOL_PARAMS_FORMAT_ERROR, not
    TOOL_EXECUTION_ERROR (the [except json.JSONDecodeError] handler also
    catches the body parse). In both cases no tool message is stored. *)
Theorem process_tool_result_error_kinds :
  forall json_dumps conversation_id log,
  let t := {| st_id := Some "t1"; st_name := Some "get_weather";
              st_parameters := Some "{}"; st_server_address := Some "http://tool" |} in
  let loads_ := fun s => if String.eqb s "{}" then Some (JObj []) else None in
  let req := {| rpc_id := "t1"; rpc_method := "get_weather"; rpc_params := JObj [] |} in
  _process_tool_result loads_ json_dumps (fun _ _ => HttpResponse 500 "{}")
    t conversation_id log
  = (log ++ [HttpPost "http://tool" req], inl (ToolExecutionError TOOL_EXECUTION_ERROR)) /\
  _process_tool_result loads_ json_dumps (fun _ _ => HttpResponse 200 "not json")
    t conversation_id log
  = (log ++ [HttpPost "http://tool" req], inl (ToolExecutionError TOOL_PARAMS_FORMAT_ERROR)).
Proof. intros. split; reflexivity. Qed.

(** C4 (code_bug): a selected call whose id is empty fails with
    TOOL_EXECUTION_ERROR instead of TOOL_MISSING_ID (same re-wrapping), and
    a call whose id key is absent fails with a KeyError while the
    [gpt_tool_calls] list is built, before any check. In both cases the
    request is aborted: the later call is never posted. *)
Theorem execute_tools_missing_field_kinds :
  forall json_loads json_dumps http_post chat_stream system_prompts db0
         user_id conversation_id mcp_servers log,
  let t2 := {| st_id := Some "t2"; st_name := Some "get_time";
               st_parameters := Some "{}"; st_server_address := Some "http://tool" |} in
  answer_question_with_tools json_loads json_dumps http_post chat_stream system_prompts db0
    user_id conversation_id
    [{| st_id := Some ""; st_name := Some "get_weather";
        st_parameters := Some "{}"; st_server_address := Some "http://tool" |}; t2]
    mcp_servers log
  = (log ++ [CreateMessage
               (assistant_tool_message
                  [{| gtc_id := ""; gtc_name := "get_weather"; gtc_arguments := "{}" |};
                   {| gtc_id := "t2"; gtc_name := "get_time"; gtc_arguments := "{}" |}])
               conversation_id],
     inl (ToolExecutionError TOOL_EXECUTION_ERROR)) /\
  answer_question_with_tools json_loads json_dumps http_post chat_stream system_prompts db0
    user_id conversation_id
    [{| st_id := None; st_name := Some "get_weather";
        st_parameters := Some "{}"; st_server_address := Some "http://tool" |}; t2]
    mcp_servers log
  = (log, inl KeyError).
Proof. intros. split; reflexivity. Qed.
End ToolInvokerFacts.

Module HeartbeatFacts.
Import Heartbeat.

Lemma heartbeat_timeouts_close : forall n user_id rest k m recv out,
  1 <= n -> k + n = m ->
  _heartbeat_loop user_id (repeat NoAck n ++ rest) (mkConn k m true recv false out) =
  (mkConn m m false false true
     (out ++ concat (repeat (timeout_round_out user_id) n)
          ++ [WsSend (ErrorFrame HEARTBEAT_MAX_RETRIES); WsClose 1000 ReasonHeartbeatTimeout]),
   inr tt).
Proof.
  induction n as [|n IH]; intros user_id rest k m recv out Hn Hm; [lia|].
  cbn -[Nat.ltb Nat.leb].
  rewrite (proj2 (Nat.ltb_lt k m)) by lia.
  unfold loop_iteration, send_heartbeat, _wait_for_heartbeat_ack, handle_heartbeat_failure,
    ws_send, ws_close, Py.catch, Py.bind, Py.ret, Py.raise, Py.get, Py.modify,
    set_ws_closed, push_out, set_is_running, set_retry_count, set_heartbeat_received.
  cbn -[Nat.ltb Nat.leb _heartbeat_loop].
  destruct n as [|n].
  - rewrite (proj2 (Nat.leb_le m (S k))) by lia. cbn.
    replace m with (S k) by lia.
    repeat rewrite <- app_assoc. reflexivity.
  - rewrite (proj2 (Nat.leb_gt m (S k))) by lia.
    rewrite IH by lia. cbn [concat repeat timeout_round_out].
    repeat rewrite <- app_assoc. reflexivity.
Qed.

(** C5: from a running supervisor on an open connection whose retry count
    is 0 (fresh, or just reset by an acknowledgement), [max_retries]
    consecutive rounds without acknowledgement end the loop: each round
    sends a heartbeat and a timeout error frame, then the fatal
    HEARTBEAT_MAX_RETRIES error frame is sent and the connection is closed
    with code 1000 and the heartbeat-timeout reason. An acknowledgement
    arriving in a round before exhaustion resets [retry_count] to 0 and the
    loop goes on with its guard true; [handle_message] on an
    acknowledgement frame resets [retry_count] and consumes the frame. *)
Theorem heartbeat_exhaustion_and_ack_reset :
  forall user_id (c : Conn),
  is_running c = true -> ws_closed c = false -> retry_count c = 0 -> 1 <= max_retries c ->
  (forall rest,
     _heartbeat_loop user_id (repeat NoAck (max_retries c) ++ rest) c =
     (mkConn (max_retries c) (max_retries c) false false true
        (ws_out c ++ concat (repeat (timeout_round_out user_id) (max_retries c))
              ++ [WsSend (ErrorFrame HEARTBEAT_MAX_RETRIES);
                  WsClose 1000 ReasonHeartbeatTimeout]),
      inr tt)) /\
  (forall c', is_running c' = true -> ws_closed c' = false ->
     retry_count c' < max_retries c' ->
     forall rs,
       _heartbeat_loop user_id (AckInTime :: rs) c' =
       _heartbeat_loop user_id rs
         (mkConn 0 (max_retries c') true true false
                 (ws_out c' ++ [WsSend (HeartbeatFrame user_id)])) /\
       (true && Nat.ltb 0 (max_retries c')) = true) /\
  (forall c', handle_message ack_frame c' =
              (set_retry_count 0 (set_heartbeat_received true c'), inr true)).
Proof.
  intros user_id [k m run recv closed out] Hrun Hclosed Hk Hm; cbn in *; subst.
  split; [|split].
  - intros rest. apply heartbeat_timeouts_close; lia.
  - intros [k' m' run' recv' closed' out'] Hrun' Hclosed' Hlt rs; cbn in *; subst.
    split.
    + destruct m' as [|m'']; [lia|].
      cbn -[Nat.leb]. rewrite (proj2 (Nat.leb_le k' m'')) by lia.
      unfold loop_iteration, send_heartbeat, _wait_for_heartbeat_ack, ws_send,
        Py.catch, Py.bind, Py.ret, Py.raise, Py.get, Py.modify,
        push_out, set_retry_count, set_heartbeat_received.
      cbn -[Nat.ltb Nat.leb _heartbeat_loop]. reflexivity.
    + destruct m'; [lia|reflexivity].
  - intros c'. reflexivity.
Qed.

Lemma heartbeat_exhaustion_and_ack_reset_witness :
  (is_running (mkConn 0 3 true false false []) = true /\
   ws_closed (mkConn 0 3 true false false []) = false /\
   retry_count (mkConn 0 3 true false false []) = 0 /\
   1 <= max_retries (mkConn 0 3 true false false [])) /\
  _heartbeat_loop "u1" (repeat NoAck 3 ++ []) (mkConn 0 3 true false false []) =
  (mkConn 3 3 false false true
     ([] ++ concat (repeat (timeout_round_out "u1") 3)
         ++ [WsSend (ErrorFrame HEARTBEAT_MAX_RETRIES);
             WsClose 1000 ReasonHeartbeatTimeout]),
   inr tt).
Proof.
  split; [repeat split; cbn; lia|].
  apply (heartbeat_exhaustion_and_ack_reset "u1" (mkConn 0 3 true false false []));
    cbn; lia.
Defined.

(** C9 (code_bug): when the heartbeat send fails because the peer has
    closed the connection, [send_heartbeat]'s handler sends an error frame
    on the closed connection, which raises again; the loop's
    ConnectionClosed handler sends once more, which raises out of the
    task. Three sends are attempted, [is_running] stays true and the task
    ends with an uncaught ConnectionClosed. *)
Theorem heartbeat_send_on_closed_connection :
  forall user_id rest,
  _heartbeat_loop user_id (PeerClosed :: rest) (mkConn 0 3 true false false [])
  = (mkConn 0 3 true false true
       [WsSend (HeartbeatFrame user_id); WsSend (ErrorFrame SERVER_CONNECTION_ERROR);
        WsSend (ErrorFrame SERVER_CONNECTION_ERROR)],
     inl ConnectionClosed).
Proof. reflexivity. Qed.
End HeartbeatFacts.

Module RouterFacts.
Import Heartbeat Router.

Lemma grows_refl : forall c, ws_closed c = false -> grows c c.
Proof. intros c Hc. split; [exact Hc|]. exists []. now rewrite app_nil_r. Qed.

Lemma grows_trans : forall c1 c2 c3, grows c1 c2 -> grows c2 c3 -> grows c1 c3.
Proof.
  intros c1 c2 c3 [_ [l1 H1]] [Hc3 [l2 H2]]. split; [exact Hc3|].
  exists (l1 ++ l2). rewrite H2, H1, map_app. symmetry. apply app_assoc.
Qed.

Lemma grows_open : forall c c', grows c c' -> ws_closed c' = false.
Proof. intros c c' [H _]; exact H. Qed.

Lemma safe_ret : forall A (a : A), safe (Py.ret a).
Proof. intros A a c Hc. apply grows_refl, Hc. Qed.

Lemma safe_raise : forall A e, safe (Py.raise (A := A) e).
Proof. intros A e c Hc. apply grows_refl, Hc. Qed.

Lemma safe_bind : forall A B (m : HM A) (k : A -> HM B),
  safe m -> (forall x, safe (k x)) -> safe (Py.bind m k).
Proof.
  intros A B m k Hm Hk c Hc. specialize (Hm c Hc). unfold Py.bind.
  destruct (m c) as [c1 [e|x]]; cbn in *; [exact Hm|].
  apply grows_trans with c1; [exact Hm|]. apply Hk, (grows_open c), Hm.
Qed.

Lemma safe_catch : forall A (m : HM A) h,
  safe m -> (forall e, safe (h e)) -> safe (Py.catch m h).
Proof.
  intros A m h Hm Hh c Hc. specialize (Hm c Hc). unfold Py.catch.
  destruct (m c) as [c1 [e|x]]; cbn in *; [|exact Hm].
  apply grows_trans with c1; [exact Hm|]. apply Hh, (grows_open c), Hm.
Qed.

Lemma nofail_bind : forall A B (m : HM A) (k : A -> HM B),
  safe m -> nofail m -> (forall x, nofail (k x)) -> nofail (Py.bind m k).
Proof.
  intros A B m k Hs Hm Hk c Hc. specialize (Hs c Hc). specialize (Hm c Hc).
  unfold Py.bind. destruct (m c) as [c1 [e|x]]; cbn in *.
  - destruct Hm as [v Hv]; discriminate.
  - apply Hk, (grows_open c), Hs.
Qed.

Lemma nofail_catch : forall A (m : HM A) h,
  safe m -> (forall e, nofail (h e)) -> nofail (Py.catch m h).
Proof.
  intros A m h Hs Hh c Hc. specialize (Hs c Hc). unfold Py.catch.
  destruct (m c) as [c1 [e|x]]; cbn in *.
  - apply Hh, (grows_open c), Hs.
  - eauto.
Qed.

Lemma catch_nofail_eq : forall A (m : HM A) h c,
  nofail m -> ws_closed c = false -> Py.catch m h c = m c.
Proof.
  intros A m h c Hm Hc. specialize (Hm c Hc). unfold Py.catch.
  destruct (m c) as [c1 [e|x]]; cbn in *; [destruct Hm as [v Hv]; discriminate|reflexivity].
Qed.

Lemma ws_send_open : forall f c,
  ws_closed c = false -> ws_send f c = (push_out (WsSend f) c, inr tt).
Proof. intros f c Hc. unfold ws_send. now rewrite Hc. Qed.

Lemma safe_ws_send : forall f, safe (ws_send f).
Proof.
  intros f c Hc. rewrite ws_send_open by exact Hc. cbn.
  split; [exact Hc|]. exists [f]. reflexivity.
Qed.

Lemma nofail_ws_send : forall f, nofail (ws_send f).
Proof. intros f c Hc. rewrite ws_send_open by exact Hc. exists tt. reflexivity. Qed.

Lemma deliver_open : forall h f c,
  ws_closed c = false -> deliver h f c = (push_out (WsSend f) c, inr tt).
Proof.
  intros h f c Hc.
  destruct h; unfold deliver, _send_to_user, Py.catch; rewrite ws_send_open by exact Hc;
    reflexivity.
Qed.

Lemma push_outs_push_out : forall l a c,
  push_outs l (push_out a c) = push_outs (a :: l) c.
Proof.
  intros l a [k m r h cl out]. unfold push_outs, push_out. cbn.
  now rewrite <- app_assoc.
Qed.

Lemma push_outs_nil : forall c, push_outs [] c = c.
Proof. intros [k m r h cl out]. unfold push_outs. cbn. now rewrite app_nil_r. Qed.

Lemma send_all_open : forall h frames c,
  ws_closed c = false -> send_all h frames c = (push_outs (map WsSend frames) c, inr tt).
Proof.
  intros h frames. induction frames as [|f fs IH]; intros c Hc.
  - cbn. now rewrite push_outs_nil.
  - cbn [send_all]. unfold Py.bind at 1. rewrite deliver_open by exact Hc.
    rewrite IH by (destruct c; exact Hc).
    now rewrite push_outs_push_out.
Qed.

Lemma safe_send_all : forall h frames, safe (send_all h frames).
Proof.
  intros h frames c Hc. rewrite send_all_open by exact Hc. cbn.
  split; [destruct c; exact Hc|]. exists frames. destruct c; reflexivity.
Qed.

Lemma safe_exec_handler : forall run_handler h fs, safe (exec_handler run_handler h fs).
Proof.
  intros run_handler h fs. unfold exec_handler.
  destruct (run_handler h fs) as [frames [e|]];
    apply safe_bind; intros; auto using safe_send_all, safe_raise, safe_ret.
Qed.

Lemma safe_handle_message : forall m, safe (handle_message m).
Proof.
  intros m c Hc. destruct m as [|fs|]; cbn; try (apply grows_refl, Hc).
  destruct (field fs "type") as [t|]; cbn; [|apply grows_refl, Hc].
  destruct (String.eqb t "heartbeat_ack"); cbn; [|apply grows_refl, Hc].
  destruct c; split; [exact Hc|]. exists []. cbn. now rewrite app_nil_r.
Qed.

Lemma safe_parse : forall m, safe (parse m).
Proof. intros []; cbn; auto using safe_ret, safe_raise. Qed.

Lemma safe_get_type : forall fs, safe (get_type fs).
Proof.
  intros fs. unfold get_type. destruct (field fs "type"); auto using safe_ret, safe_raise.
Qed.

Ltac safe_frame_body :=
  apply safe_bind; [apply safe_handle_message|]; intros [|]; [apply safe_ret|];
  apply safe_bind; [apply safe_parse|]; intros ?fs;
  apply safe_bind; [apply safe_get_type|]; intros ?t;
  destruct (dispatch t) as [[]|];
    first [apply safe_ws_send | apply safe_exec_handler].

Lemma safe_handle_frame : forall run_handler m, safe (handle_frame run_handler m).
Proof.
  intros run_handler m. unfold handle_frame.
  apply safe_catch; [safe_frame_body | intros; apply safe_ws_send].
Qed.

Lemma nofail_handle_frame : forall run_handler m, nofail (handle_frame run_handler m).
Proof.
  intros run_handler m. unfold handle_frame.
  apply nofail_catch; [safe_frame_body | intros; apply nofail_ws_send].
Qed.

Lemma safe_message_loop : forall run_handler ms, safe (message_loop run_handler ms).
Proof.
  intros run_handler ms. induction ms as [|m ms IH]; cbn [message_loop].
  - apply safe_ret.
  - apply safe_bind; [apply safe_handle_frame | intros; exact IH].
Qed.

Lemma nofail_message_loop : forall run_handler ms, nofail (message_loop run_handler ms).
Proof.
  intros run_handler ms. induction ms as [|m ms IH]; cbn [message_loop].
  - intros c _. exists tt. reflexivity.
  - apply nofail_bind; [apply safe_handle_frame | apply nofail_handle_frame | intros; exact IH].
Qed.

Lemma dispatch_not_ack : forall t h, dispatch t = Some h -> String.eqb t "heartbeat_ack" = false.
Proof.
  intros t h H. destruct (String.eqb t "heartbeat_ack") eqn:E; [|reflexivity].
  apply String.eqb_eq in E. subst. discriminate H.
Qed.

(** C6: on an authenticated, open connection, an unparseable frame gets a
    JSON-parse error frame and the connection stays open; a dispatched
    handler that raises [e] after sending some frames has those frames
    followed by an error frame carrying [error_code_of e], with nothing
    raised; and the main loop over any sequence of inbound frames raises
    nothing, never closes the connection and only sends frames. *)
Theorem router_errors_become_frames :
  forall run_handler : Handler -> list (string * string) -> list Frame * option PyExc,
  (forall c, ws_closed c = false ->
     handle_frame run_handler Unparseable c =
     (push_out (WsSend (ErrorFrame MSG_JSON_PARSE_ERROR)) c, inr tt)) /\
  (forall fs t h frames e c,
     ws_closed c = false -> field fs "type" = Some t -> dispatch t = Some h ->
     h <> Logout -> run_handler h fs = (frames, Some e) ->
     handle_frame run_handler (JsonObject fs) c =
     (push_outs (map WsSend frames ++ [WsSend (ErrorFrame (error_code_of e))]) c, inr tt)) /\
  (forall ms c, ws_closed c = false ->
     exists c' sent,
       connection_loop run_handler ms c = (c', inr tt) /\
       ws_closed c' = false /\ ws_out c' = ws_out c ++ map WsSend sent).
Proof.
  intros run_handler. split; [|split].
  - intros c Hc. unfold handle_frame, Py.catch, Py.bind. cbn.
    apply ws_send_open, Hc.
  - intros fs t h frames e c Hc Ht Hd Hh Hr.
    unfold handle_frame, Py.catch, Py.bind. cbn.
    rewrite Ht, (dispatch_not_ack t h Hd). cbn.
    unfold get_type. rewrite Ht. cbn. rewrite Hd.
    assert (Hx : exec_handler run_handler h fs c =
                 (push_outs (map WsSend frames) c, inl e)).
    { unfold exec_handler. rewrite Hr. unfold Py.bind.
      rewrite send_all_open by exact Hc. reflexivity. }
    destruct h; [contradiction| | | | |]; rewrite Hx;
      rewrite ws_send_open by (destruct c; exact Hc);
      unfold push_out, push_outs; cbn; rewrite app_assoc; reflexivity.
  - intros ms c Hc. unfold connection_loop.
    rewrite catch_nofail_eq by (exact (nofail_message_loop run_handler ms) || exact Hc).
    pose proof (safe_message_loop run_handler ms c Hc) as [Hc' [sent Hs]].
    pose proof (nofail_message_loop run_handler ms c Hc) as [[] Hv].
    destruct (message_loop run_handler ms c) as [c' r]. cbn in *. subst r.
    exists c', sent. auto.
Qed.

Lemma router_errors_become_frames_witness :
  (ws_closed (mkConn 0 3 true false false []) = false /\
   field [("type", "user_question"); ("question", "q")] "type" = Some "user_question" /\
   dispatch "user_question" = Some UserQuestion /\ UserQuestion <> Logout /\
   (fun _ _ => ([AnswerFrame "a"], Some (MessageProcessingError MSG_GPT_RESPONSE_ERROR)))
     UserQuestion [("type", "user_question"); ("question", "q")] =
     ([AnswerFrame "a"], Some (MessageProcessingError MSG_GPT_RESPONSE_ERROR))) /\
  handle_frame (fun _ _ => ([AnswerFrame "a"], Some (MessageProcessingError MSG_GPT_RESPONSE_ERROR)))
    (JsonObject [("type", "user_question"); ("question", "q")]) (mkConn 0 3 true false false []) =
  (push_outs (map WsSend [AnswerFrame "a"] ++
              [WsSend (ErrorFrame (error_code_of (MessageProcessingError MSG_GPT_RESPONSE_ERROR)))])
             (mkConn 0 3 true false false []), inr tt).
Proof.
  split; [repeat split; discriminate|].
  apply (proj1 (proj2 (router_errors_become_frames
           (fun _ _ => ([AnswerFrame "a"], Some (MessageProcessingError MSG_GPT_RESPONSE_ERROR)))))
         [("type", "user_question"); ("question", "q")] "user_question" UserQuestion
         [AnswerFrame "a"] (MessageProcessingError MSG_GPT_RESPONSE_ERROR)
         (mkConn 0 3 true false false []));
    [reflexivity | reflexivity | reflexivity | discriminate | reflexivity].
Defined.

(** C7 (code_bug): the live router dispatches only six types. Every other
    type value, in particular the delete-conversation and list-conversations
    requests, gets the InvalidType error frame and nothing else. *)
Theorem router_dispatches_six_types :
  forall run_handler t fs c,
  ws_closed c = false -> field fs "type" = Some t ->
  ~ In t ["logout"; "settings_add_server"; "conversation_question";
          "conversation_message"; "user_question"; "execute_tools"; "heartbeat_ack"] ->
  dispatch t = None /\
  handle_frame run_handler (JsonObject fs) c =
  (push_out (WsSend (ErrorFrame MSG_INVALID_TYPE)) c, inr tt).
Proof.
  intros run_handler t fs c Hc Ht Hn.
  assert (Hd : dispatch t = None).
  { unfold dispatch.
    repeat match goal with
           | |- context [String.eqb t ?s] =>
               let E := fresh "E" in
               destruct (String.eqb t s) eqn:E;
               [apply String.eqb_eq in E; subst; exfalso; apply Hn; cbn; tauto|]
           end.
    reflexivity. }
  assert (Ha : String.eqb t "heartbeat_ack" = false).
  { destruct (String.eqb t "heartbeat_ack") eqn:E; [|reflexivity].
    apply String.eqb_eq in E. subst. exfalso. apply Hn. cbn. tauto. }
  split; [exact Hd|].
  unfold handle_frame, Py.catch, Py.bind. cbn.
  rewrite Ht, Ha. cbn. unfold get_type. rewrite Ht. cbn. rewrite Hd.
  rewrite ws_send_open by exact Hc. reflexivity.
Qed.

Lemma router_dispatches_six_types_witness :
  (ws_closed (mkConn 0 3 true false false []) = false /\
   field [("type", "delete_conversation"); ("conversation_id", "c1")] "type"
     = Some "delete_conversation" /\
   ~ In "delete_conversation"
       ["logout"; "settings_add_server"; "conversation_question";
        "conversation_message"; "user_question"; "execute_tools"; "heartbeat_ack"]) /\
  dispatch "delete_conversation" = None /\
  handle_frame (fun _ _ => ([], None))
    (JsonObject [("type", "delete_conversation"); ("conversation_id", "c1")])
    (mkConn 0 3 true false false []) =
  (push_out (WsSend (ErrorFrame MSG_INVALID_TYPE)) (mkConn 0 3 true false false []), inr tt).
Proof.
  assert (Hn : ~ In "delete_conversation"
                 ["logout"; "settings_add_server"; "conversation_question";
                  "conversation_message"; "user_question"; "execute_tools"; "heartbeat_ack"]).
  { cbn. intuition discriminate. }
  split; [split; [reflexivity | split; [reflexivity | exact Hn]]|].
  apply (router_dispatches_six_types (fun _ _ => ([], None)) "delete_conversation"
           [("type", "delete_conversation"); ("conversation_id", "c1")]
           (mkConn 0 3 true false false [])); [reflexivity | reflexivity | exact Hn].
Defined.
End RouterFacts.

Module TranscriptFacts.
Import Orchestrator Storage Transcript.

(** C10 (counterexample): a stored history with a tool round trip. The
    GPTServer version returns the assistant tool-call message (content
    None) and the tool message; the ConversationManager version drops
    both. *)
Example conversation_message_versions_differ :
  let db0 :=
    [("c1", {| db_role := user; db_content := Some "hi";
               db_tool_call_id := None; db_tool_calls := None |});
     ("c1", {| db_role := assistant; db_content := None; db_tool_call_id := None;
               db_tool_calls := Some [{| gtc_id := "t1"; gtc_name := "get_weather";
                                         gtc_arguments := "{}" |}] |});
     ("c1", {| db_role := tool; db_content := Some "42";
               db_tool_call_id := Some "t1"; db_tool_calls := None |});
     ("c1", {| db_role := assistant; db_content := Some "ok";
               db_tool_call_id := None; db_tool_calls := None |})] in
  GPTServerTranscript.answer_conversation_message db0 "c1" "u1" [] <>
  ConversationManagerTranscript.answer_conversation_message db0 "c1" "u1" [].
Proof. cbv. discriminate. Qed.

Lemma filter_valid_id : forall ms,
  filter_valid_conversation_messages ms = ms <->
  Forall (fun m => cm_role m = user \/ (cm_role m = assistant /\ py_truthy (cm_content m) = true)) ms.
Proof.
  unfold filter_valid_conversation_messages.
  induction ms as [|m ms IH]; cbn; [split; auto|].
  destruct (role_eqb (cm_role m) user || role_eqb (cm_role m) assistant && py_truthy (cm_content m))
    eqn:E.
  - split.
    + intros H. injection H as H. constructor; [|apply IH, H].
      destruct (cm_role m); cbn in E; auto; discriminate.
    + intros H. inversion H; subst. f_equal. apply IH. assumption.
  - split.
    + intros H. exfalso.
      assert (Hl : length (filter (fun m0 => role_eqb (cm_role m0) user
                     || role_eqb (cm_role m0) assistant && py_truthy (cm_content m0)) ms)
                   = length (m :: ms)) by (rewrite H; reflexivity).
      pose proof (filter_length_le (fun m0 => role_eqb (cm_role m0) user
                     || role_eqb (cm_role m0) assistant && py_truthy (cm_content m0)) ms).
      cbn in Hl. lia.
    + intros H. inversion H as [|? ? Hm]; subst.
      destruct Hm as [Hm | [Hm Ht]]; rewrite Hm in E; cbn in E; [discriminate|].
      rewrite Ht in E. discriminate.
Qed.

(** C10 (amended): for every stored history both versions send one
    conversation_message frame; ConversationManager's transcript is
    GPTServer's transcript (system messages removed) filtered to user
    messages and assistant messages with non-empty content. The two
    frames are equal exactly when every message of GPTServer's transcript
    is a user message or an assistant message with non-empty content. *)
Theorem conversation_message_versions_relation :
  forall db0 conversation_id user_id log,
  let ms := delete_system_message
              (_convert_to_messages_format (stored_messages db0 log conversation_id)) in
  GPTServerTranscript.answer_conversation_message db0 conversation_id user_id log =
    (log ++ [SendToUser user_id (ConversationMessageFrame conversation_id ms)], inr tt) /\
  ConversationManagerTranscript.answer_conversation_message db0 conversation_id user_id log =
    (log ++ [SendToUser user_id (ConversationMessageFrame conversation_id
                                   (filter_valid_conversation_messages ms))], inr tt) /\
  (ConversationManagerTranscript.answer_conversation_message db0 conversation_id user_id log =
   GPTServerTranscript.answer_conversation_message db0 conversation_id user_id log <->
   Forall (fun m => cm_role m = user \/
                    (cm_role m = assistant /\ py_truthy (cm_content m) = true)) ms).
Proof.
  intros db0 conversation_id user_id log ms.
  assert (Hg : GPTServerTranscript.answer_conversation_message db0 conversation_id user_id log =
               (log ++ [SendToUser user_id (ConversationMessageFrame conversation_id ms)], inr tt))
    by reflexivity.
  assert (Hc : ConversationManagerTranscript.answer_conversation_message db0 conversation_id
                 user_id log =
               (log ++ [SendToUser user_id (ConversationMessageFrame conversation_id
                                             (filter_valid_conversation_messages ms))], inr tt))
    by reflexivity.
  split; [exact Hg|]. split; [exact Hc|].
  rewrite Hg, Hc, <- filter_valid_id. split.
  - intros H. injection H as H. apply app_inv_head in H. injection H as H. exact H.
  - intros H. rewrite H. reflexivity.
Qed.

Lemma conversation_message_versions_relation_witness :
  ConversationManagerTranscript.answer_conversation_message
    [("c1", {| db_role := user; db_content := Some "hi";
               db_tool_call_id := None; db_tool_calls := None |})] "c1" "u1" [] =
  GPTServerTranscript.answer_conversation_message
    [("c1", {| db_role := user; db_content := Some "hi";
               db_tool_call_id := None; db_tool_calls := None |})] "c1" "u1" [].
Proof.
  apply (proj2 (proj2 (conversation_message_versions_relation
    [("c1", {| db_role := user; db_content := Some "hi";
               db_tool_call_id := None; db_tool_calls := None |})] "c1" "u1" []))).
  cbv. repeat constructor.
Defined.
End TranscriptFacts.

Module StorageFacts.
Import Orchestrator Storage Transcript.

(** The valid-transcript filter already drops system messages: removing
    them first changes nothing, and each of the two filters is idempotent. *)
Theorem transcript_filters_compose : forall ms,
  filter_valid_conversation_messages (delete_system_message ms) =
    filter_valid_conversation_messages ms /\
  filter_valid_conversation_messages (filter_valid_conversation_messages ms) =
    filter_valid_conversation_messages ms /\
  delete_system_message (delete_system_message ms) = delete_system_message ms.
Proof.
  unfold filter_valid_conversation_messages, delete_system_message.
  induction ms as [|m ms [IH1 [IH2 IH3]]]; [repeat split|].
  cbn [filter].
  destruct m as [r c ti tcs]; cbn [cm_role cm_content].
  destruct r; cbn [role_eqb negb orb andb];
    [| | destruct (py_truthy c) eqn:Et |]; cbn [filter cm_role cm_content role_eqb negb orb andb];
    rewrite ?Et; cbn [orb andb]; rewrite ?IH1, ?IH2, ?IH3; repeat split.
Qed.

(** [_convert_to_messages_format] keeps every stored row, in order, except
    the tool rows without a truthy [tool_call_id]; every tool message it
    produces carries a truthy id, and a message with [tool_calls] has no
    content. *)
Theorem convert_keeps_rows : forall ms,
  map cm_role (_convert_to_messages_format ms) =
    map db_role (filter (fun m => negb (role_eqb (db_role m) tool
                                        && negb (py_truthy (db_tool_call_id m)))) ms) /\
  Forall (fun cm => role_eqb (cm_role cm) tool = true -> py_truthy (cm_tool_call_id cm) = true)
    (_convert_to_messages_format ms) /\
  Forall (fun cm => cm_tool_calls cm <> None -> cm_content cm = None)
    (_convert_to_messages_format ms).
Proof.
  unfold _convert_to_messages_format.
  induction ms as [|m ms [IH1 [IH2 IH3]]]; [repeat split; constructor|].
  cbn [flat_map filter]. rewrite map_app, !Forall_app.
  destruct m as [r c ti tcs]; destruct r; cbn [convert_message db_role db_content db_tool_call_id db_tool_calls];
    [| | destruct tcs | destruct (py_truthy ti) eqn:Et];
    cbn [role_eqb andb negb map app py_truthy]; rewrite ?Et; cbn [negb map app];
    rewrite ?IH1; (split; [reflexivity|]);
    (split; (split; [|assumption])); repeat constructor; cbn; try congruence.
Qed.

Lemma stored_messages_app : forall db0 log m c c',
  stored_messages db0 (log ++ [CreateMessage m c]) c' =
  stored_messages db0 log c' ++ (if String.eqb c c' then [m] else []).
Proof.
  intros db0 log m c c'. unfold stored_messages.
  rewrite flat_map_app, app_assoc, filter_app, map_app. cbn.
  rewrite String.eqb_sym. destruct (String.eqb c' c); reflexivity.
Qed.


End StorageFacts.

Module OrchestratorExtraFacts.
Import Orchestrator.

Lemma dict_get_prepend : forall fs a d f,
  dict_get (fold_left (fun d' g => (g, a) :: d') fs d) f =
  if existsb (String.eqb f) fs then Some a else dict_get d f.
Proof.
  induction fs as [|g fs IH]; intros a d f; [reflexivity|].
  cbn [fold_left existsb]. rewrite IH. cbn.
  destruct (String.eqb f g); cbn; destruct (existsb (String.eqb f) fs); reflexivity.
Qed.

(** [available_functions] maps a function name to the address of the last
    server in [mcp_servers] that lists it, and has no entry for a name no
    server lists. *)
Theorem available_functions_last_server_wins : forall servers f,
  dict_get (build_available_functions servers) f =
  option_map server_address
    (find (fun s => existsb (String.eqb f) (server_functions s)) (rev servers)).
Proof.
  intros servers f. unfold build_available_functions.
  assert (H : forall d, dict_get (fold_left (fun d srv => fold_left (fun d' g => (g, server_address srv) :: d')
                                       (server_functions srv) d) servers d) f =
                        match find (fun s => existsb (String.eqb f) (server_functions s)) (rev servers) with
                        | Some s => Some (server_address s)
                        | None => dict_get d f
                        end).
  { induction servers as [|s ss IH] using rev_ind; intros d; [reflexivity|].
    rewrite fold_left_app. cbn [fold_left]. rewrite dict_get_prepend, rev_app_distr. cbn.
    destruct (existsb (String.eqb f) (server_functions s)); [reflexivity|]. apply IH. }
  rewrite H. destruct (find _ (rev servers)); reflexivity.
Qed.

Lemma append_to_last_keeps : forall calls args fc,
  append_to_last calls args = Some fc ->
  map pc_id fc = map pc_id calls /\
  map (fun pc => (pc_name pc, pc_server_address pc)) fc =
  map (fun pc => (pc_name pc, pc_server_address pc)) calls.
Proof.
  induction calls as [|c cs IH]; intros args fc H; [discriminate|].
  destruct cs as [|c' cs'].
  - cbn in H. injection H as <-. split; reflexivity.
  - change (option_map (cons c) (append_to_last (c' :: cs') args) = Some fc) in H.
    destruct (append_to_last (c' :: cs') args) as [fc'|] eqn:E; [|discriminate].
    cbn in H. injection H as <-. destruct (IH _ _ E) as [H1 H2]. cbn. rewrite H1, H2. split; reflexivity.
Qed.

Lemma Forall_addr_map : forall avail (l1 l2 : list PendingToolCall),
  map (fun pc => (pc_name pc, pc_server_address pc)) l1 =
  map (fun pc => (pc_name pc, pc_server_address pc)) l2 ->
  Forall (fun pc => dict_get avail (pc_name pc) = Some (pc_server_address pc)) l2 ->
  Forall (fun pc => dict_get avail (pc_name pc) = Some (pc_server_address pc)) l1.
Proof.
  intros avail l1. induction l1 as [|x xs IH]; intros [|y ys] Hm Hf; try discriminate; [constructor|].
  cbn in Hm. injection Hm as Hn Ha Hr. inversion Hf; subst.
  constructor; [rewrite Hn, Ha; assumption | eapply IH; eassumption].
Qed.

Lemma process_chunk_calls : forall avail u calls full d log log1 calls1 full1,
  process_chunk avail u (calls, full) d log = (log1, inr (calls1, full1)) ->
  map pc_id calls1 = map pc_id calls ++ fragment_ids [d] /\
  (Forall (fun pc => dict_get avail (pc_name pc) = Some (pc_server_address pc)) calls ->
   Forall (fun pc => dict_get avail (pc_name pc) = Some (pc_server_address pc)) calls1).
Proof.
  intros avail u calls full [dc dtc] log log1 calls1 full1 H.
  unfold process_chunk, Py.bind, Py.ret, Py.raise, emit in H. cbn [d_content d_tool_calls] in H.
  unfold fragment_ids. cbn [flat_map d_tool_calls]. rewrite app_nil_r.
  destruct dc as [c|]; destruct dtc as [[|tc tcs]|]; cbn in H; try discriminate;
    try (injection H as _ <- _; rewrite app_nil_r; auto; fail);
    (destruct (tc_id tc) as [i|];
     [destruct (dict_get avail (tc_name tc)) as [a|] eqn:Ea; [|discriminate];
      injection H as _ <- _; rewrite map_app; split; [reflexivity|];
      intros Hf; apply Forall_app; split; [exact Hf|]; constructor; [exact Ea|constructor]
     |destruct (append_to_last calls (tc_arguments tc)) as [fc|] eqn:Ef; [|discriminate];
      injection H as _ <- _; destruct (append_to_last_keeps _ _ _ Ef) as [H1 H2];
      rewrite app_nil_r; split; [exact H1|]; intros Hf; eapply Forall_addr_map; eassumption]).
Qed.

Lemma consume_calls : forall avail u stream calls full log log' calls' full',
  consume avail u (calls, full) stream log = (log', inr (calls', full')) ->
  map pc_id calls' = map pc_id calls ++ fragment_ids stream /\
  (Forall (fun pc => dict_get avail (pc_name pc) = Some (pc_server_address pc)) calls ->
   Forall (fun pc => dict_get avail (pc_name pc) = Some (pc_server_address pc)) calls').
Proof.
  induction stream as [|d ds IH]; intros calls full log log' calls' full' H.
  - cbn in H. injection H as _ <- <-. cbn. rewrite app_nil_r. auto.
  - cbn [consume] in H. unfold Py.bind in H at 1.
    destruct (process_chunk avail u (calls, full) d log) as [log1 [e|[calls1 full1]]] eqn:E;
      [discriminate|].
    destruct (IH _ _ _ _ _ _ H) as [IH1 IH2].
    destruct (process_chunk_calls _ _ _ _ _ _ _ _ _ E) as [P1 P2].
    split; [|auto].
    rewrite IH1, P1, <- app_assoc. f_equal.
    change (d :: ds) with ([d] ++ ds). unfold fragment_ids. now rewrite flat_map_app.
Qed.

(** When a stream is consumed to its end, the pending calls are one
    per id-bearing fragment, in stream order with those ids, and each
    carries the address [available_functions] gives for its name. *)
Theorem assembled_calls_follow_fragments : forall avail u stream calls,
  assemble avail u stream = Some calls ->
  map pc_id calls = fragment_ids stream /\
  Forall (fun pc => dict_get avail (pc_name pc) = Some (pc_server_address pc)) calls.
Proof.
  intros avail u stream calls H. unfold assemble in H.
  destruct (consume avail u ([], "") stream []) as [log' [e|[calls' full']]] eqn:E; [discriminate|].
  injection H as <-. destruct (consume_calls _ _ _ _ _ _ _ _ _ E) as [H1 H2].
  split; [exact H1 | apply H2; constructor].
Qed.

Lemma assembled_calls_follow_fragments_witness :
  let stream := [{| d_content := None;
                    d_tool_calls := Some [{| tc_id := Some "c1"; tc_name := "get_weather";
                                             tc_arguments := "{" |}] |};
                 {| d_content := None;
                    d_tool_calls := Some [{| tc_id := None; tc_name := "";
                                             tc_arguments := "}" |}] |}] in
  let calls := [{| pc_id := "c1"; pc_name := "get_weather"; pc_parameters := "{}";
                   pc_server_address := "http://w" |}] in
  assemble [("get_weather", "http://w")] "u1" stream = Some calls /\
  map pc_id calls = fragment_ids stream /\
  Forall (fun pc => dict_get [("get_weather", "http://w")] (pc_name pc) = Some (pc_server_address pc))
    calls.
Proof.
  cbv zeta. split; [reflexivity|].
  apply (assembled_calls_follow_fragments [("get_weather", "http://w")] "u1"). reflexivity.
Defined.
End OrchestratorExtraFacts.

Module ToolInvokerExtraFacts.
Import Orchestrator Storage ToolInvoker.

Lemma find_rev_existsb : forall (f : string * Json -> bool) l x,
  find f (rev l) = Some x -> existsb f l = true.
Proof.
  intros f l x H. apply find_some in H as [Hin Hf].
  apply existsb_exists. exists x. split; [apply in_rev; exact Hin | exact Hf].
Qed.

Lemma require_field_ok : forall v code log,
  v <> "" -> require_field (Some v) code log = (log, inr v).
Proof.
  intros v code log Hv. unfold require_field.
  destruct (String.eqb_spec v ""); [contradiction | reflexivity].
Qed.

Lemma _process_tool_result_cases :
  forall json_loads json_dumps http_post t conv log,
  match _process_tool_result json_loads json_dumps http_post t conv log with
  | (log', inr _) =>
      exists i addr payload res,
        st_id t = Some i /\
        log' = log ++ [HttpPost addr payload; CreateMessage (tool_message i res) conv]
  | (log', inl e) =>
      (log' = log \/ exists addr payload, log' = log ++ [HttpPost addr payload]) /\
      (e = KeyError \/ exists code, e = ToolExecutionError code)
  end.
Proof.
  intros json_loads json_dumps http_post t conv log.
  destruct t as [oi on ops oa].
  cbv beta iota zeta delta [_process_tool_result Py.catch Py.bind Py.ret Py.raise emit
    require_field loads py_in_result py_get_result st_id st_name st_parameters st_server_address].
  repeat match goal with
         | |- context [match ?x with _ => _ end] =>
             lazymatch x with
             | context [match _ with _ => _ end] => fail
             | _ => destruct x eqn:?; cbv beta iota zeta
             end
         end;
  try solve [split; [left; reflexivity | eauto]
            | split; [right; eauto | eauto]
            | do 4 eexists; split; [reflexivity | rewrite <- app_assoc; reflexivity]].
Qed.

(** [_process_tool_result] either succeeds after exactly one POST and one
    stored tool message carrying the tool's id, or fails after at most one
    POST, without storing anything, with a KeyError or a
    ToolExecutionError. *)
Theorem process_tool_result_shape :
  forall json_loads json_dumps http_post t conv log,
  match _process_tool_result json_loads json_dumps http_post t conv log with
  | (log', inr _) =>
      exists i addr payload res,
        st_id t = Some i /\
        log' = log ++ [HttpPost addr payload; CreateMessage (tool_message i res) conv]
  | (log', inl e) =>
      (log' = log \/ exists addr payload, log' = log ++ [HttpPost addr payload]) /\
      (e = KeyError \/ exists code, e = ToolExecutionError code)
  end.
Proof.
  intros. apply _process_tool_result_cases.
Qed.

Lemma stored_messages_post : forall db0 log addr p c,
  stored_messages db0 (log ++ [HttpPost addr p]) c = stored_messages db0 log c.
Proof.
  intros. unfold stored_messages. rewrite flat_map_app. cbn. now rewrite app_nil_r.
Qed.


(** With the four fields present and non-empty, parseable parameters, a
    200 response whose JSON object has a "result" key, the tool's POST is
    the JSON-RPC request built from the fields, the stored tool message
    holds [json.dumps] of the last "result" value, and reading the
    conversation back ends with that tool message. *)
Theorem process_tool_result_success :
  forall json_loads json_dumps http_post db0 i n ps addr p text kvs k r conv log,
  i <> "" -> n <> "" -> ps <> "" -> addr <> "" ->
  json_loads ps = Some p ->
  http_post addr {| rpc_id := i; rpc_method := n; rpc_params := p |} = HttpResponse 200 text ->
  json_loads text = Some (JObj kvs) ->
  find (fun kv => String.eqb (fst kv) "result") (rev kvs) = Some (k, r) ->
  let log' := log ++ [HttpPost addr {| rpc_id := i; rpc_method := n; rpc_params := p |};
                      CreateMessage (tool_message i (json_dumps r)) conv] in
  _process_tool_result json_loads json_dumps http_post
    {| st_id := Some i; st_name := Some n; st_parameters := Some ps;
       st_server_address := Some addr |} conv log = (log', inr tt) /\
  get_message_list db0 conv log' =
    (log', inr (_convert_to_messages_format (stored_messages db0 log conv) ++
                [{| cm_role := tool; cm_content := Some (json_dumps r);
                    cm_tool_call_id := Some i; cm_tool_calls := None |}])).
Proof.
  intros json_loads json_dumps http_post db0 i n ps addr p text kvs k r conv log
    Hi Hn Hps Ha Hp Hpost Ht Hr log'.
  split.
  - unfold _process_tool_result, Py.catch, Py.bind.
    cbn [st_id st_name st_parameters st_server_address].
    rewrite !require_field_ok by assumption.
    unfold loads; rewrite Hp. unfold Py.ret; cbv beta iota zeta.
    unfold emit; cbv beta iota. rewrite Hpost. cbn [Nat.eqb negb].
    rewrite Ht. cbv beta iota. cbn [py_in_result].
    rewrite (find_rev_existsb _ _ _ Hr). unfold Py.ret; cbn [negb].
    unfold py_get_result. rewrite Hr. unfold Py.ret; cbn [snd].
    unfold log'. now rewrite <- app_assoc.
  - unfold get_message_list, log'. f_equal. f_equal.
    change [HttpPost addr {| rpc_id := i; rpc_method := n; rpc_params := p |};
            CreateMessage (tool_message i (json_dumps r)) conv]
      with ([HttpPost addr {| rpc_id := i; rpc_method := n; rpc_params := p |}] ++
            [CreateMessage (tool_message i (json_dumps r)) conv]).
    rewrite app_assoc, StorageFacts.stored_messages_app, stored_messages_post, String.eqb_refl.
    unfold _convert_to_messages_format. rewrite flat_map_app. cbn.
    destruct (String.eqb_spec i ""); [contradiction|]. reflexivity.
Qed.

Lemma process_tool_result_success_witness :
  let log' := [] ++ [HttpPost "http://w" {| rpc_id := "t1"; rpc_method := "get_weather"; rpc_params := JObj [] |};
                     CreateMessage (tool_message "t1" "ok") "c1"] in
  _process_tool_result
    (fun s => if String.eqb s "{}" then Some (JObj [])
                 else if String.eqb s "R" then Some (JObj [("result", JStr "ok")]) else None)
    (fun _ => "ok") (fun _ _ => HttpResponse 200 "R")
    {| st_id := Some "t1"; st_name := Some "get_weather"; st_parameters := Some "{}";
       st_server_address := Some "http://w" |} "c1" [] = (log', inr tt) /\
  get_message_list [] "c1" log' =
    (log', inr (_convert_to_messages_format (stored_messages [] [] "c1") ++
                [{| cm_role := tool; cm_content := Some "ok";
                    cm_tool_call_id := Some "t1"; cm_tool_calls := None |}])).
Proof.
  exact (process_tool_result_success
    (fun s => if String.eqb s "{}" then Some (JObj [])
                 else if String.eqb s "R" then Some (JObj [("result", JStr "ok")]) else None)
    (fun _ => "ok") (fun _ _ => HttpResponse 200 "R")
    [] "t1" "get_weather" "{}" "http://w" (JObj []) "R" [("result", JStr "ok")] "result" (JStr "ok") "c1" []
    ltac:(discriminate) ltac:(discriminate) ltac:(discriminate) ltac:(discriminate)
    eq_refl eq_refl eq_refl eq_refl).
Defined.

(** The loop over [select_tools] stores one tool message per tool, in the
    order of the tools and with each tool's id, when all succeed; when one
    fails, only the tools before it have stored their message. *)
Theorem process_all_creates : forall json_loads json_dumps http_post ts conv log,
  match process_all json_loads json_dumps http_post ts conv log with
  | (log', inr _) =>
      exists extra, log' = log ++ extra /\
      Forall2 (fun t mc => exists i res, st_id t = Some i /\ mc = (tool_message i res, conv))
        ts (created_messages extra)
  | (log', inl _) =>
      exists extra k, log' = log ++ extra /\ k < length ts /\
      Forall2 (fun t mc => exists i res, st_id t = Some i /\ mc = (tool_message i res, conv))
        (firstn k ts) (created_messages extra)
  end.
Proof.
  intros json_loads json_dumps http_post ts conv.
  induction ts as [|t ts IH]; intro log.
  - cbn. exists []. split; [now rewrite app_nil_r | constructor].
  - cbn [process_all]. unfold Py.bind.
    pose proof (_process_tool_result_cases json_loads json_dumps http_post t conv log) as Hc.
    destruct (_process_tool_result json_loads json_dumps http_post t conv log) as [l1 [e|u]].
    + destruct Hc as [[-> | [addr [p ->]]] _].
      * exists [], 0. rewrite app_nil_r. cbn. repeat split; [lia | constructor].
      * exists [HttpPost addr p], 0. cbn. repeat split; [lia | constructor].
    + destruct Hc as [i [addr [p [res [Hi ->]]]]].
      specialize (IH (log ++ [HttpPost addr p; CreateMessage (tool_message i res) conv])).
      destruct (process_all json_loads json_dumps http_post ts conv
                  (log ++ [HttpPost addr p; CreateMessage (tool_message i res) conv]))
        as [l2 [e|u']].
      * destruct IH as [extra [k [-> [Hk Hf]]]].
        exists ([HttpPost addr p; CreateMessage (tool_message i res) conv] ++ extra), (S k).
        rewrite app_assoc. repeat split; [cbn; lia|].
        unfold created_messages. rewrite flat_map_app. cbn.
        constructor; [eauto | exact Hf].
      * destruct IH as [extra [-> Hf]].
        exists ([HttpPost addr p; CreateMessage (tool_message i res) conv] ++ extra).
        rewrite app_assoc. split; [reflexivity|].
        unfold created_messages. rewrite flat_map_app. cbn.
        constructor; [eauto | exact Hf].
Qed.
End ToolInvokerExtraFacts.

Module RouterExtraFacts.
Import Heartbeat Router LiveRouter RouterFacts.

Lemma handle_frame_dispatched : forall rh fs t h c,
  ws_closed c = false -> field fs "type" = Some t -> dispatch t = Some h ->
  handle_frame rh (JsonObject fs) c =
  Py.catch (fun c' => match h with
                      | Logout => ws_send LogoutSuccessFrame c'
                      | _ => exec_handler rh h fs c'
                      end)
           (fun e => ws_send (ErrorFrame (error_code_of e))) c.
Proof.
  intros rh fs t h c Hc Ht Hd.
  unfold handle_frame, Py.catch, Py.bind. cbn.
  rewrite Ht, (dispatch_not_ack t h Hd). cbn.
  unfold get_type. rewrite Ht. cbn. rewrite Hd.
  destruct h; reflexivity.
Qed.

(** The four branches whose arguments include [get_conversation_id] or
    [get_server] never reach their handler: the frame is answered with
    the internal error frame alone, whatever the handler body does. *)
Theorem live_router_attribute_branches_fail :
  forall body fs t c,
  ws_closed c = false -> field fs "type" = Some t ->
  In t ["settings_add_server"; "conversation_message"; "user_question"; "execute_tools"] ->
  handle_frame (live_handler body) (JsonObject fs) c =
  (push_out (WsSend (ErrorFrame SERVER_INTERNAL_ERROR)) c, inr tt).
Proof.
  intros body fs t c Hc Ht Hin.
  assert (Hh : exists h, dispatch t = Some h /\ h <> Logout /\
                 match eval_args fs (handler_args h) with
                 | Some e => error_code_of e = SERVER_INTERNAL_ERROR
                 | None => False
                 end).
  { cbn in Hin.
    destruct Hin as [E|[E|[E|[E|[]]]]]; subst t;
      [exists SettingsAddServer | exists ConversationMessage | exists UserQuestion
      | exists ExecuteTools];
      (split; [reflexivity|split; [discriminate|]]);
      cbn; repeat match goal with
                  | |- context [match ?x with _ => _ end] =>
                      lazymatch x with field _ _ => destruct x | _ => fail end
                  end; reflexivity. }
  destruct Hh as [h [Hd [Hl He]]].
  rewrite (handle_frame_dispatched _ fs t h c Hc Ht Hd).
  unfold Py.catch.
  assert (Hx : exec_handler (live_handler body) h fs c =
               (c, inl (match eval_args fs (handler_args h) with Some e => e | None => KeyError end))).
  { unfold exec_handler, live_handler.
    destruct (eval_args fs (handler_args h)); [|contradiction]. reflexivity. }
  destruct (eval_args fs (handler_args h)) as [e|]; [|contradiction].
  destruct h; [contradiction| | | | |]; rewrite Hx, He; apply ws_send_open, Hc.
Qed.

Lemma live_router_attribute_branches_fail_witness :
  (ws_closed (mkConn 0 3 true false false []) = false /\
   field [("type", "user_question"); ("question", "q")] "type" = Some "user_question" /\
   In "user_question"
     ["settings_add_server"; "conversation_message"; "user_question"; "execute_tools"]) /\
  handle_frame (live_handler (fun _ _ => ([AnswerFrame "a"], None)))
    (JsonObject [("type", "user_question"); ("question", "q")]) (mkConn 0 3 true false false []) =
  (push_out (WsSend (ErrorFrame SERVER_INTERNAL_ERROR)) (mkConn 0 3 true false false []), inr tt).
Proof.
  split; [split; [reflexivity | split; [reflexivity | cbn; tauto]]|].
  apply (live_router_attribute_branches_fail (fun _ _ => ([AnswerFrame "a"], None))
           [("type", "user_question"); ("question", "q")] "user_question"
           (mkConn 0 3 true false false [])); [reflexivity | reflexivity | cbn; tauto].
Defined.

(** A heartbeat acknowledgement is consumed by the heartbeat manager: the
    retry counter is reset, the received flag set, and nothing is sent,
    whatever the other fields and whatever the connection state. *)
Theorem router_consumes_heartbeat_ack :
  forall rh fs c,
  field fs "type" = Some "heartbeat_ack" ->
  handle_frame rh (JsonObject fs) c =
  (set_retry_count 0 (set_heartbeat_received true c), inr tt).
Proof.
  intros rh fs c Ht.
  unfold handle_frame, Py.catch, Py.bind. cbn. rewrite Ht. reflexivity.
Qed.

Lemma router_consumes_heartbeat_ack_witness :
  field [("type", "heartbeat_ack"); ("user_id", "u1")] "type" = Some "heartbeat_ack" /\
  handle_frame (fun _ _ => ([], None)) (JsonObject [("type", "heartbeat_ack"); ("user_id", "u1")])
    (mkConn 2 3 true false false []) =
  (set_retry_count 0 (set_heartbeat_received true (mkConn 2 3 true false false [])), inr tt).
Proof.
  split; [reflexivity|].
  apply (router_consumes_heartbeat_ack (fun _ _ => ([], None))
           [("type", "heartbeat_ack"); ("user_id", "u1")] (mkConn 2 3 true false false [])).
  reflexivity.
Defined.



(** "logout" only answers the logout-success frame: no handler runs, the
    connection is not closed, and the loop goes on with the next frame. *)
Theorem router_logout_keeps_loop :
  forall rh fs ms c,
  ws_closed c = false -> field fs "type" = Some "logout" ->
  message_loop rh (JsonObject fs :: ms) c =
  message_loop rh ms (push_out (WsSend LogoutSuccessFrame) c).
Proof.
  intros rh fs ms c Hc Ht. cbn [message_loop]. unfold Py.bind at 1.
  rewrite (handle_frame_dispatched rh fs "logout" Logout c Hc Ht eq_refl).
  unfold Py.catch. rewrite ws_send_open by exact Hc. reflexivity.
Qed.

Lemma router_logout_keeps_loop_witness :
  (ws_closed (mkConn 0 3 true false false []) = false /\
   field [("type", "logout")] "type" = Some "logout") /\
  message_loop (fun _ _ => ([], None))
    [JsonObject [("type", "logout")]; JsonObject [("type", "heartbeat_ack")]]
    (mkConn 1 3 true false false []) =
  message_loop (fun _ _ => ([], None)) [JsonObject [("type", "heartbeat_ack")]]
    (push_out (WsSend LogoutSuccessFrame) (mkConn 1 3 true false false [])).
Proof.
  split; [split; reflexivity|].
  apply (router_logout_keeps_loop (fun _ _ => ([], None)) [("type", "logout")]
           [JsonObject [("type", "heartbeat_ack")]] (mkConn 1 3 true false false []));
    reflexivity.
Defined.
End RouterExtraFacts.

Module HeartbeatExtraFacts.
Import Heartbeat.

Lemma closes_app : forall l1 l2, closes (l1 ++ l2) = closes l1 ++ closes l2.
Proof. intros. unfold closes. apply flat_map_app. Qed.

Lemma loop_iteration_closes : forall u r c,
  match loop_iteration u r c with
  | (c', res) =>
      exists l, ws_out c' = ws_out c ++ l /\
      (closes l = [] \/
       (exists l', l = l' ++ [WsClose 1000 ReasonHeartbeatTimeout] /\ closes l' = [] /\
                   res = inr Break))
  end.
Proof.
  intros u r [k m run recv cl out].
  unfold loop_iteration, send_heartbeat, _wait_for_heartbeat_ack, handle_heartbeat_failure,
    handle_message, is_heartbeat_ack_message, ack_frame,
    ws_send, ws_close, Py.catch, Py.bind, Py.ret, Py.raise, Py.get, Py.modify,
    set_ws_closed, push_out, set_is_running, set_retry_count, set_heartbeat_received.
  destruct cl, r, run; cbn -[Nat.leb];
    try destruct (Nat.leb m (S k)); cbn;
    rewrite <- ?app_assoc; cbn;
    first [ eexists; split; [reflexivity | left; reflexivity]
          | match goal with
            | |- exists l, ?o ++ ?L = ?o ++ l /\ _ =>
                exists L; split;
                [reflexivity | right; exists (removelast L); split; [reflexivity | split; reflexivity]]
            end ].
Qed.

(** Whatever happens in each round, the heartbeat loop closes the
    connection at most once, always with code 1000 and the heartbeat-timeout
    reason, and that close is the last thing it does on the websocket. *)
Theorem heartbeat_loop_closes_at_most_once :
  forall user_id rounds c,
  exists l, ws_out (fst (_heartbeat_loop user_id rounds c)) = ws_out c ++ l /\
  (closes l = [] \/
   exists l', l = l' ++ [WsClose 1000 ReasonHeartbeatTimeout] /\ closes l' = []).
Proof.
  intros user_id rounds. induction rounds as [|r rs IH]; intro c.
  - exists []. cbn. rewrite app_nil_r. auto.
  - cbn [_heartbeat_loop]. unfold Py.bind, Py.get.
    destruct (is_running c && Nat.ltb (retry_count c) (max_retries c)).
    2: { exists []. cbn. rewrite app_nil_r. auto. }
    set (c1 := fst (match r with
                    | PeerClosed => Py.modify (set_ws_closed true)
                    | _ => Py.ret tt
                    end c)).
    assert (Hc1 : (match r with
                   | PeerClosed => Py.modify (set_ws_closed true)
                   | _ => Py.ret tt
                   end c) = (c1, inr tt) /\ ws_out c1 = ws_out c)
      by (unfold c1; destruct r; split; reflexivity).
    destruct Hc1 as [-> Hout].
    pose proof (loop_iteration_closes user_id r c1) as Hit.
    destruct (loop_iteration user_id r c1) as [c2 [e|[|]]];
      destruct Hit as [l [Hl Hcl]]; rewrite Hout in Hl.
    + exists l. cbn. split; [exact Hl|].
      destruct Hcl as [H|[l' [H1 [H2 _]]]]; eauto.
    + destruct Hcl as [Hcl|[l' [_ [_ Hb]]]]; [|discriminate].
      destruct (IH c2) as [l2 [Hl2 Hcl2]]. cbn iota.
      exists (l ++ l2). rewrite Hl2, Hl, app_assoc. split; [reflexivity|].
      destruct Hcl2 as [Hcl2|[l2' [-> Hcl2']]].
      * left. rewrite closes_app, Hcl, Hcl2. reflexivity.
      * right. exists (l ++ l2'). rewrite app_assoc. split; [reflexivity|].
        rewrite closes_app, Hcl, Hcl2'. reflexivity.
    + exists l. cbn. split; [exact Hl|].
      destruct Hcl as [H|[l' [H1 [H2 _]]]]; eauto.
Qed.

Lemma ack_round : forall u rs k m recv out,
  k < m ->
  _heartbeat_loop u (AckInTime :: rs) (mkConn k m true recv false out) =
  _heartbeat_loop u rs (mkConn 0 m true true false (out ++ [WsSend (HeartbeatFrame u)])).
Proof.
  intros u rs k m recv out Hk.
  destruct m as [|m']; [lia|].
  cbn -[Nat.leb Nat.ltb]. rewrite (proj2 (Nat.ltb_lt k (S m'))) by lia.
  unfold loop_iteration, send_heartbeat, _wait_for_heartbeat_ack, ws_send,
    Py.catch, Py.bind, Py.ret, Py.raise, Py.get, Py.modify,
    push_out, set_retry_count, set_heartbeat_received.
  cbn -[Nat.ltb Nat.leb _heartbeat_loop]. reflexivity.
Qed.

(** Rounds that are all acknowledged in time send one heartbeat each and
    nothing else, never close the connection, and leave the supervisor
    running with [retry_count] 0: the loop then goes on as from a fresh
    start. *)
Theorem heartbeat_acked_rounds_reset :
  forall user_id n rest c,
  is_running c = true -> ws_closed c = false -> retry_count c < max_retries c ->
  _heartbeat_loop user_id (repeat AckInTime (S n) ++ rest) c =
  _heartbeat_loop user_id rest
    (mkConn 0 (max_retries c) true true false
       (ws_out c ++ repeat (WsSend (HeartbeatFrame user_id)) (S n))).
Proof.
  intros user_id n rest [k m run recv cl out] Hr Hc Hk;
    cbn [retry_count max_retries is_running ws_closed ws_out] in *; subst.
  revert k recv out Hk.
  induction n as [|n IH]; intros k recv out Hk.
  - cbn [repeat app]. apply ack_round, Hk.
  - change (repeat AckInTime (S (S n)) ++ rest)
      with (AckInTime :: (repeat AckInTime (S n) ++ rest)).
    rewrite ack_round by exact Hk.
    rewrite IH by lia.
    cbn [repeat]. rewrite <- app_assoc. reflexivity.
Qed.

Lemma heartbeat_acked_rounds_reset_witness :
  (is_running (mkConn 2 3 true false false []) = true /\
   ws_closed (mkConn 2 3 true false false []) = false /\
   retry_count (mkConn 2 3 true false false []) < max_retries (mkConn 2 3 true false false [])) /\
  _heartbeat_loop "u1" (repeat AckInTime 2 ++ [NoAck]) (mkConn 2 3 true false false []) =
  _heartbeat_loop "u1" [NoAck]
    (mkConn 0 3 true true false ([] ++ repeat (WsSend (HeartbeatFrame "u1")) 2)).
Proof.
  split; [cbn; repeat split; lia|].
  apply (heartbeat_acked_rounds_reset "u1" 1 [NoAck] (mkConn 2 3 true false false []));
    cbn; [reflexivity | reflexivity | lia].
Defined.
End HeartbeatExtraFacts.

Module AuthFacts.
Import Heartbeat Auth.




Lemma login_type_match : forall {A} (t : string) (a b : A),
  match t with "login" => a | _ => b end = if String.eqb t "login" then a else b.
Proof.
  intros A t a b.
  destruct (String.eqb_spec t "login") as [->|Hne]; [reflexivity|].
  repeat match goal with
         | |- context [match ?x with _ => _ end] =>
             lazymatch x with
             | context [match _ with _ => _ end] => fail
             | _ => destruct x
             end
         end; solve [reflexivity | exfalso; apply Hne; reflexivity].
Qed.

Lemma handle_auth_ok_cases : forall username_eq users data u,
  handle_auth username_eq users data = AuthOk u ->
  field data "type" = Some "login" /\
  exists un, field data "username" = Some un /\ un <> "" /\
             get_user_by_username username_eq users un = Some u /\
             field data "password" = Some (password u) /\ password u <> "".
Proof.
  intros username_eq users data u H. unfold handle_auth in H.
  destruct (field data "type") as [t|]; [|discriminate H].
  cbn [py_falsy] in H. destruct (String.eqb_spec t ""); [discriminate H|].
  rewrite login_type_match in H.
  destruct (String.eqb t "login") eqn:Et; [apply String.eqb_eq in Et; subst t|discriminate H].
  split; [reflexivity|].
  destruct (field data "username") as [un|]; [|discriminate H].
  cbn [py_falsy] in H. destruct (String.eqb_spec un ""); [discriminate H|].
  destruct (field data "password") as [p|]; [|discriminate H].
  cbn [py_falsy] in H. destruct (String.eqb_spec p ""); [discriminate H|].
  destruct (get_user_by_username username_eq users un) as [r|] eqn:Hg; [|discriminate H].
  destruct (String.eqb_spec (password r) p) as [Hp|]; cbn [negb] in H; [|discriminate H].
  injection H as <-. exists un. subst p. auto.
Qed.

(** A login succeeds only for a "login" request with a non-empty username
    and the stored, non-empty password of the first row the username
    matches; the user returned is that row. *)
Theorem handle_auth_ok_requires_stored_password :
  forall username_eq users data u,
  handle_auth username_eq users data = AuthOk u ->
  field data "type" = Some "login" /\
  exists un, field data "username" = Some un /\ un <> "" /\
             get_user_by_username username_eq users un = Some u /\
             field data "password" = Some (password u) /\ password u <> "".
Proof. intros. apply handle_auth_ok_cases. assumption. Qed.

Lemma handle_auth_ok_requires_stored_password_witness :
  handle_auth String.eqb [{| user_id := "id1"; username := "alice"; password := "secret12";
                             settings := None |}]
    [("type", "login"); ("username", "alice"); ("password", "secret12")] =
    AuthOk {| user_id := "id1"; username := "alice"; password := "secret12"; settings := None |} /\
  (field [("type", "login"); ("username", "alice"); ("password", "secret12")] "type" = Some "login" /\
   exists un, field [("type", "login"); ("username", "alice"); ("password", "secret12")] "username"
                = Some un /\ un <> "" /\
     get_user_by_username String.eqb
       [{| user_id := "id1"; username := "alice"; password := "secret12"; settings := None |}] un =
       Some {| user_id := "id1"; username := "alice"; password := "secret12"; settings := None |} /\
     field [("type", "login"); ("username", "alice"); ("password", "secret12")] "password"
       = Some "secret12" /\ "secret12" <> "").
Proof.
  split; [reflexivity|].
  exact (handle_auth_ok_requires_stored_password String.eqb
           [{| user_id := "id1"; username := "alice"; password := "secret12"; settings := None |}]
           [("type", "login"); ("username", "alice"); ("password", "secret12")]
           {| user_id := "id1"; username := "alice"; password := "secret12"; settings := None |}
           eq_refl).
Defined.


End AuthFacts.
